(** * Election map analysis: join, metric derivation and classification

    A shallow embedding of the precinct map component
    ([getPrecinctResults], [getWinningCandidate], the four precinct styling
    functions and their dispatcher, [darkenColor]/[lightenColor],
    [calculateGenZPercentage], [styleCensusTract], the derived values
    interpolated by [onEachPrecinct]) and of the earlier single-view variant
    ([stylePrecinct]).

    Modelling conventions.
    - Vote and registration counts are JavaScript numbers holding integers:
      [Z].  Percentages derived from them are modelled exactly, as rationals
      extended with the two infinities and NaN ([JS.num]), so that a division
      by zero is visible as such; binary64 rounding of these quotients is not
      modelled there.  The Gen-Z share, whose weights 0.8 and 0.4 are not
      binary fractions, is modelled a second time with the arithmetic of the
      code (module [Binary64]).
    - Colour channels live in 0..255 and are scaled, floored and printed in
      hexadecimal.  [Math.floor] of such a product is sensitive to binary64
      rounding, so this part uses the kernel's binary64 floats.
    - A string is the sequence of its code units, all below 256.
    - An object used as a dictionary is the list of its own entries in
      enumeration order (the order of [Object.entries]); a property read is
      the first entry with that key.  The two tables read by a candidate
      key are object literals, whose reads also find the members inherited
      from [Object.prototype]; module [WithPrototype] models the results
      view with such reads.
    - [undefined]/[null] are [None]; truthiness tests are written out.
    - [console.log] is a writer effect ([Console]); [Math.random] is an
      explicit argument. *)

From Stdlib Require Import ZArith QArith Qround String Ascii List Bool Lia Lqa.
From Stdlib Require Import Sorted Permutation.
From Stdlib Require DecimalString HexadecimalString.
From Stdlib Require DecimalZ DecimalPos DecimalFacts.
From Stdlib Require Import Floats.PrimFloat Floats.FloatOps Floats.SpecFloat.
From Stdlib Require Uint63.
Import ListNotations.

Set Warnings "-inexact-float".

Local Open Scope string_scope.
Local Open Scope Z_scope.

(* ================================================================== *)
(** ** JavaScript values *)

Module JS.

(** Numbers of the metric pipeline: exact rationals, plus what a division by
    zero produces. *)
Inductive num : Type :=
| Fin (q : Q)
| PInf
| NInf
| NaN.

Definition ofZ (z : Z) : num := Fin (inject_Z z).

(** Equality of numbers up to the representation of the rational. *)
Definition num_eq (a b : num) : Prop :=
  match a, b with
  | Fin x, Fin y => (x == y)%Q
  | PInf, PInf | NInf, NInf | NaN, NaN => True
  | _, _ => False
  end.

Definition isFinite (a : num) : bool :=
  match a with Fin _ => true | _ => false end.

Definition Qsign (q : Q) : comparison := (q ?= 0)%Q.

(** [a / b]. *)
Definition div (a b : num) : num :=
  match a, b with
  | NaN, _ | _, NaN => NaN
  | Fin x, Fin y =>
      match Qsign y with
      | Eq => match Qsign x with Eq => NaN | Gt => PInf | Lt => NInf end
      | _ => Fin (x / y)
      end
  | Fin _, _ => Fin 0
  | _, PInf | _, NInf => NaN
  | PInf, Fin y => match Qsign y with Lt => NInf | _ => PInf end
  | NInf, Fin y => match Qsign y with Lt => PInf | _ => NInf end
  end.

(** [a * b]. *)
Definition mul (a b : num) : num :=
  let inf_times (pos : bool) (q : Q) :=
    match Qsign q with
    | Eq => NaN
    | Gt => if pos then PInf else NInf
    | Lt => if pos then NInf else PInf
    end in
  match a, b with
  | NaN, _ | _, NaN => NaN
  | Fin x, Fin y => Fin (x * y)
  | PInf, Fin y => inf_times true y
  | NInf, Fin y => inf_times false y
  | Fin x, PInf => inf_times true x
  | Fin x, NInf => inf_times false x
  | PInf, PInf | NInf, NInf => PInf
  | PInf, NInf | NInf, PInf => NInf
  end.

(** Ordering; [None] when an operand is NaN, so that every comparison with
    NaN is false. *)
Definition compare (a b : num) : option comparison :=
  match a, b with
  | NaN, _ | _, NaN => None
  | Fin x, Fin y => Some (x ?= y)%Q
  | PInf, PInf | NInf, NInf => Some Eq
  | PInf, _ | _, NInf => Some Gt
  | NInf, _ | _, PInf => Some Lt
  end.

Definition lt (a b : num) : bool :=
  match compare a b with Some Lt => true | _ => false end.
Definition gt (a b : num) : bool := lt b a.
Definition ge (a b : num) : bool :=
  match compare a b with Some Gt | Some Eq => true | _ => false end.

(** Truthiness of a string, of an optional string, and [a || b]. *)
Definition truthy (s : string) : bool := negb (s =? "")%string.

Definition truthy_opt (o : option string) : bool :=
  match o with Some s => truthy s | None => false end.

Definition or_else (o : option string) (d : string) : string :=
  match o with
  | Some s => if truthy s then s else d
  | None => d
  end.

(** [o[k]] on an object used as a dictionary. *)
Fixpoint prop {A : Type} (o : list (string * A)) (k : string) : option A :=
  match o with
  | [] => None
  | (k', v) :: o' => if (k' =? k)%string then Some v else prop o' k
  end.

(** [n.toString()] for an integer-valued number (below 1e21 in absolute
    value, where JavaScript still prints plain decimal digits). *)
Definition toString (n : Z) : string :=
  DecimalString.NilZero.string_of_int (Z.to_int n).

(** [arr.sort(cmp)]: the sort is stable, and [cmp a b > 0] asks for [a]
    after [b]. *)
Section Sort.
Context {A : Type} (cmp : A -> A -> Z).

Fixpoint insert (x : A) (l : list A) : list A :=
  match l with
  | [] => [x]
  | y :: l' => if cmp x y >? 0 then y :: insert x l' else x :: y :: l'
  end.

Definition sort (l : list A) : list A := fold_right insert [] l.
End Sort.

(** *** Strings and binary64 numbers of the colour helpers *)

(** [s.replace("#", "")]: the first occurrence is removed. *)
Fixpoint removeFirstHash (s : string) : string :=
  match s with
  | EmptyString => EmptyString
  | String c s' =>
      if Ascii.eqb c "#"%char then s' else String c (removeFirstHash s')
  end.

(** [s.substr(start, len)]. *)
Definition substr (s : string) (start len : nat) : string :=
  String.substring start len s.

Definition hexDigit (c : ascii) : option Z :=
  let n := Z.of_nat (nat_of_ascii c) in
  if (48 <=? n) && (n <=? 57) then Some (n - 48)
  else if (97 <=? n) && (n <=? 102) then Some (n - 87)
  else if (65 <=? n) && (n <=? 70) then Some (n - 55)
  else None.

Fixpoint parseHexDigits (s : string) (acc : option Z) : option Z :=
  match s with
  | EmptyString => acc
  | String c s' =>
      match hexDigit c with
      | Some d =>
          parseHexDigits s'
            (Some (match acc with Some a => 16 * a + d | None => d end))
      | None => acc
      end
  end.

Definition ofInt (z : Z) : float :=
  if z <? 0 then PrimFloat.opp (PrimFloat.of_uint63 (Uint63.of_Z (- z)))
  else PrimFloat.of_uint63 (Uint63.of_Z z).

(** White space and line terminators among the code units below 256: tab,
    line feed, vertical tab, form feed, carriage return, space and the
    no-break space. *)
Definition isWhiteSpace (c : ascii) : bool :=
  let n := Z.of_nat (nat_of_ascii c) in
  ((9 <=? n) && (n <=? 13)) || (n =? 32) || (n =? 160).

Fixpoint trimStart (s : string) : string :=
  match s with
  | EmptyString => EmptyString
  | String c s' => if isWhiteSpace c then trimStart s' else s
  end.

(** [parseInt(s, 16)]: leading white space is skipped, then one sign is
    read, then a [0x] or [0X] prefix; of what follows the longest prefix of
    hexadecimal digits is the value, and the result is NaN when there is no
    digit. *)
Definition parseInt16 (s : string) : float :=
  let trimmed := trimStart s in
  let '(negative, unsigned) :=
    match trimmed with
    | String "-" rest => (true, rest)
    | String "+" rest => (false, rest)
    | _ => (false, trimmed)
    end in
  let digits :=
    match unsigned with
    | String "0" (String c rest) =>
        if (Ascii.eqb c "x" || Ascii.eqb c "X")%bool then rest else unsigned
    | _ => unsigned
    end in
  match parseHexDigits digits None with
  | Some z => if negative then PrimFloat.opp (ofInt z) else ofInt z
  | None => PrimFloat.nan
  end.

(** [Math.floor]. *)
Definition Math_floor (x : float) : float :=
  match Prim2SF x with
  | S754_finite s m (Zneg p) =>
      let d := 2 ^ Zpos p in
      if s then ofInt (- ((Zpos m + d - 1) / d)) else ofInt (Zpos m / d)
  | _ => x
  end.

Definition Math_max (a b : float) : float :=
  if PrimFloat.is_nan a || PrimFloat.is_nan b then PrimFloat.nan
  else if PrimFloat.ltb a b then b else a.

Definition Math_min (a b : float) : float :=
  if PrimFloat.is_nan a || PrimFloat.is_nan b then PrimFloat.nan
  else if PrimFloat.ltb b a then b else a.

Definition hexOfN (n : N) : string :=
  HexadecimalString.NilZero.string_of_uint (N.to_hex_uint n).

(** [x.toString(16)] for an integer-valued number, NaN or an infinity (the
    fraction digits of other numbers are not modelled: the callers print
    results of [Math.floor]). *)
Definition toString16 (x : float) : string :=
  match Prim2SF x with
  | S754_nan => "NaN"
  | S754_infinity s => if s then "-Infinity" else "Infinity"
  | S754_zero _ => "0"
  | S754_finite s m e =>
      let z := match e with
               | Z0 => Zpos m
               | Zpos p => Zpos m * 2 ^ Zpos p
               | Zneg p => Zpos m / 2 ^ Zpos p
               end in
      ((if s then "-" else "") ++ hexOfN (Z.to_N z))%string
  end.

(** [s.padStart(n, "0")]. *)
Definition padStart0 (s : string) (n : nat) : string :=
  (String.concat "" (repeat "0" (n - String.length s)) ++ s)%string.

End JS.

(* ================================================================== *)
(** ** Data model *)

(** A record of [results.precincts].  [results] is the candidate mapping
    (candidate key to votes, with the reserved key [total_writeins]). *)
Record PrecinctResult : Type := {
  item_id : string;
  votes : Z;
  results : list (string * Z);
  locality_name : option string
}.

(** A record of the voter-registration table. *)
Module VoterCounts.
Record t : Type := {
  district : Z;
  county : string;
  democrats : Z;
  republicans : Z;
  conservatives : Z;
  working_families : Z;
  other : Z;
  blank : Z;
  total : Z
}.
End VoterCounts.

(** [feature.properties] of an election-district feature. *)
Record Feature : Type := {
  OBJECTID : Z;
  ElectDist : Z;
  Shape__Area : Q;
  Shape__Length : Q
}.

(** An entry of [ageGroups]: an object that may carry a [total]. *)
Module AgeGroup.
Record t : Type := { total : option Z }.
End AgeGroup.

(** [feature.properties] of a census-tract feature ([None]: no properties). *)
Record TractProps : Type := {
  totalPopulation : option Z;
  ageGroups : option (list (string * option AgeGroup.t))
}.

Record TractFeature : Type := { properties : option TractProps }.

Inductive ViewMode : Type :=
| election_results
| voter_registration
| turnout
| age_demographics
| zohran_support.

(** The style object of a precinct. *)
Record Style : Type := {
  fillColor : string;
  weight : Q;
  opacity : Q;
  color : string;
  dashArray : string;
  fillOpacity : Q
}.

(** The style object of a census tract ([dashArray] may be [undefined] or
    missing). *)
Module TractStyle.
Record t : Type := {
  fillColor : string;
  weight : Q;
  opacity : Q;
  color : string;
  fillOpacity : Q;
  dashArray : option string
}.
End TractStyle.

(* ================================================================== *)
(** ** Console output *)

Inductive LogEntry : Type :=
| NoResultsFound (electDist : Z)
| StylingPrecinct (electDist : Z) (hasResults : bool)
    (winningCandidate : option string) (locality : option string).

Definition Console (A : Type) : Type := (A * list LogEntry)%type.

Definition ret {A : Type} (a : A) : Console A := (a, []).

Definition bind {A B : Type} (m : Console A) (k : A -> Console B) : Console B :=
  let (a, l1) := m in
  let (b, l2) := k a in
  (b, l1 ++ l2)%list.

Definition console_log (e : LogEntry) : Console unit := (tt, [e]).

Definition value {A : Type} (m : Console A) : A := fst m.
Definition logged {A : Type} (m : Console A) : list LogEntry := snd m.

Notation "x <- c ;; k" := (bind c (fun x => k))
  (at level 61, c at next level, right associativity).
Notation "c ;;; k" := (bind c (fun _ => k))
  (at level 61, right associativity).

(* ================================================================== *)
(** ** Colour helpers *)

Definition channel (hex : string) (start : nat) : float :=
  JS.parseInt16 (JS.substr hex start 2).

Definition hex2 (x : float) : string := JS.padStart0 (JS.toString16 x) 2.

(** [darkenColor(color, amount)]. *)
Definition darkenColor (color : string) (amount : float) : string :=
  let hex := JS.removeFirstHash color in
  let r := channel hex 0 in
  let g := channel hex 2 in
  let b := channel hex 4 in
  let newR := JS.Math_max 0 (JS.Math_floor (r * (1 - amount))) in
  let newG := JS.Math_max 0 (JS.Math_floor (g * (1 - amount))) in
  let newB := JS.Math_max 0 (JS.Math_floor (b * (1 - amount))) in
  ("#" ++ hex2 newR ++ hex2 newG ++ hex2 newB)%string.

(** [lightenColor(color, amount)]. *)
Definition lightenColor (color : string) (amount : float) : string :=
  let hex := JS.removeFirstHash color in
  let r := channel hex 0 in
  let g := channel hex 2 in
  let b := channel hex 4 in
  let newR := JS.Math_min 255 (JS.Math_floor (r + (255 - r) * amount)) in
  let newG := JS.Math_min 255 (JS.Math_floor (g + (255 - g) * amount)) in
  let newB := JS.Math_min 255 (JS.Math_floor (b + (255 - b) * amount)) in
  ("#" ++ hex2 newR ++ hex2 newG ++ hex2 newB)%string.

(* ================================================================== *)
(** ** Winner of a precinct *)

Definition writeInKey : string := "total_writeins".

(** The entries that take part in the ranking:
    [Object.entries(r.results).filter(([key]) => key !== "total_writeins")]. *)
Definition candidateEntries (r : PrecinctResult) : list (string * Z) :=
  filter (fun kv => negb (fst kv =? writeInKey)%string) (results r).

(** The comparator [([, a], [, b]) => b - a]. *)
Definition byVotesDesc (x y : string * Z) : Z := snd y - snd x.

Definition rankedCandidates (r : PrecinctResult) : list (string * Z) :=
  JS.sort byVotesDesc (candidateEntries r).

(** [getWinningCandidate(precinctResults)]; the result is
    [candidates[0]?.[0] || null]. *)
Definition getWinningCandidate (precinctResults : option PrecinctResult)
  : option string :=
  match precinctResults with
  | None => None
  | Some r =>
      match rankedCandidates r with
      | [] => None
      | (key, _) :: _ => if JS.truthy key then Some key else None
      end
  end.

(* ================================================================== *)
(** ** Styling tables *)

Definition noDataColor : string := "#cccccc".

Definition mkStyle (fill : string) : Style :=
  {| fillColor := fill;
     weight := 1;
     opacity := 1;
     color := "white";
     dashArray := "3";
     fillOpacity := 7 # 10 |}.

Definition candidateBaseColors : list (string * string) :=
  [ ("cuomo-a", "#1f77b4");
    ("lander-b", "#ff7f0e");
    ("mamdani-z", "#2ca02c");
    ("ramos-j", "#d62728");
    ("stringer-s", "#9467bd");
    ("blake-m", "#8c564b");
    ("myrie-z", "#e377c2");
    ("tilson-w", "#7f7f7f");
    ("adams-a", "#bcbd22") ].

(** [candidateBaseColors[winningCandidate] || "#cccccc"], read among the
    own entries of the table (for the names of inherited members see
    [WithPrototype.baseColorOf]). *)
Definition baseColorOf (winningCandidate : string) : string :=
  JS.or_else (JS.prop candidateBaseColors winningCandidate) noDataColor.

(** [(a / b) * 100]. *)
Definition percentOf (a b : JS.num) : JS.num :=
  JS.mul (JS.div a b) (JS.ofZ 100).

(** [precinctResults.results[key]] read as a number ([undefined] behaves as
    NaN in arithmetic). *)
Definition votesOf (r : PrecinctResult) (key : string) : JS.num :=
  match JS.prop (results r) key with
  | Some v => JS.ofZ v
  | None => JS.NaN
  end.

(** [totalVotes > 0 ? (winningVotes / totalVotes) * 100 : 0]. *)
Definition winPercentage (r : PrecinctResult) (winningCandidate : string)
  : JS.num :=
  if votes r >? 0
  then percentOf (votesOf r winningCandidate) (JS.ofZ (votes r))
  else JS.ofZ 0.

(** The shading chain of the results view. *)
Definition resultsFill (baseColor : string) (winPercentage : JS.num) : string :=
  if JS.ge winPercentage (JS.ofZ 80) then darkenColor baseColor 0.3
  else if JS.ge winPercentage (JS.ofZ 60) then darkenColor baseColor 0.2
  else if JS.ge winPercentage (JS.ofZ 50) then baseColor
  else if JS.ge winPercentage (JS.ofZ 40) then lightenColor baseColor 0.2
  else lightenColor baseColor 0.4.

(** The threshold chain of the Democratic-turnout view. *)
Definition turnoutFill (demTurnoutPercentage : JS.num) : string :=
  if JS.ge demTurnoutPercentage (JS.ofZ 60) then "#1a365d"
  else if JS.ge demTurnoutPercentage (JS.ofZ 50) then "#2c5282"
  else if JS.ge demTurnoutPercentage (JS.ofZ 40) then "#3182ce"
  else if JS.ge demTurnoutPercentage (JS.ofZ 30) then "#63b3ed"
  else if JS.ge demTurnoutPercentage (JS.ofZ 20) then "#90cdf4"
  else "#bee3f8".

(** The threshold chain of the voter-registration view. *)
Definition votersFill (demPercentage : JS.num) : string :=
  if JS.lt demPercentage (JS.ofZ 30) then "#d62728"
  else if JS.lt demPercentage (JS.ofZ 40) then "#ff7f0e"
  else if JS.lt demPercentage (JS.ofZ 50) then "#ffbb78"
  else if JS.lt demPercentage (JS.ofZ 60) then "#aec7e8"
  else if JS.lt demPercentage (JS.ofZ 70) then "#1f77b4"
  else "#0d47a1".

(** The threshold chain of the Zohran-support view. *)
Definition zohranFill (zohranSupportPercentage : JS.num) : string :=
  if JS.ge zohranSupportPercentage (JS.ofZ 20) then "#276419"
  else if JS.ge zohranSupportPercentage (JS.ofZ 15) then "#4d9221"
  else if JS.ge zohranSupportPercentage (JS.ofZ 10) then "#7fbc41"
  else if JS.ge zohranSupportPercentage (JS.Fin (15 # 2)) then "#b8e186"
  else if JS.ge zohranSupportPercentage (JS.ofZ 5) then "#d9f0a3"
  else if JS.ge zohranSupportPercentage (JS.Fin (5 # 2)) then "#f1b6da"
  else if JS.gt zohranSupportPercentage (JS.ofZ 0) then "#de77ae"
  else "#c51b7d".

(** [precinctResults.results["mamdani-z"] || 0]. *)
Definition zohranVotes (r : PrecinctResult) : Z :=
  match JS.prop (results r) "mamdani-z" with
  | Some v => if v =? 0 then 0 else v
  | None => 0
  end.

(* ================================================================== *)
(** ** Gen-Z share of a census tract *)

(** One iteration of the loop over [Object.entries(ageGroups)]: the
    contribution of an entry to [genZCount]. *)
Definition genZContribution (entry : string * option AgeGroup.t) : Q :=
  let (ageRange, data) := entry in
  match data with
  | Some {| AgeGroup.total := Some count |} =>
      if count >? 0 then
        if (ageRange =? "10 to 14 years")%string then inject_Z count * (8 # 10)
        else if (ageRange =? "15 to 19 years")%string then inject_Z count
        else if (ageRange =? "20 to 24 years")%string then inject_Z count
        else if (ageRange =? "25 to 29 years")%string then inject_Z count * (4 # 10)
        else 0
      else 0
  | _ => 0
  end%Q.

Definition genZCount (groups : list (string * option AgeGroup.t)) : Q :=
  fold_left (fun acc entry => acc + genZContribution entry)%Q groups 0%Q.

(** [calculateGenZPercentage(ageGroups, totalPopulation)], in exact
    arithmetic (in binary64: [Binary64.calculateGenZPercentage]). *)
Definition calculateGenZPercentage
    (ageGroups : option (list (string * option AgeGroup.t)))
    (totalPopulation : option Z) : option JS.num :=
  match ageGroups, totalPopulation with
  | Some groups, Some population =>
      if population =? 0 then None
      else
        let count := genZCount groups in
        if Qeq_bool count 0 then None
        else Some (percentOf (JS.Fin count) (JS.ofZ population))
  | _, _ => None
  end.

(** The threshold chain of the age-demographics view. *)
Definition genZFill (genZPercentage : JS.num) : string :=
  if JS.ge genZPercentage (JS.ofZ 30) then "#276419"
  else if JS.ge genZPercentage (JS.ofZ 25) then "#4d9221"
  else if JS.ge genZPercentage (JS.ofZ 20) then "#7fbc41"
  else if JS.ge genZPercentage (JS.ofZ 15) then "#b8e186"
  else if JS.ge genZPercentage (JS.ofZ 10) then "#f1b6da"
  else if JS.ge genZPercentage (JS.ofZ 5) then "#de77ae"
  else "#c51b7d".

Definition tractNoData (isPrimaryView : bool) : TractStyle.t :=
  {| TractStyle.fillColor := noDataColor;
     TractStyle.weight := if isPrimaryView then 1 else 1 # 2;
     TractStyle.opacity := 1;
     TractStyle.color := if isPrimaryView then "#666666" else "#888888";
     TractStyle.fillOpacity := if isPrimaryView then 7 # 10 else 3 # 10;
     TractStyle.dashArray := None |}.

(** [styleCensusTract(feature, isPrimaryView)]. *)
Definition styleCensusTract (feature : TractFeature) (isPrimaryView : bool)
  : TractStyle.t :=
  let props := properties feature in
  let totalPop :=
    match props with Some p => totalPopulation p | None => None end in
  match totalPop with
  | None => tractNoData isPrimaryView
  | Some pop =>
      if pop =? 0 then tractNoData isPrimaryView
      else
        let genZPercentage :=
          calculateGenZPercentage
            (match props with Some p => ageGroups p | None => None end)
            totalPop in
        match genZPercentage with
        | None => tractNoData isPrimaryView
        | Some pct =>
            {| TractStyle.fillColor := genZFill pct;
               TractStyle.weight := if isPrimaryView then 1 else 1 # 2;
               TractStyle.opacity := 1;
               TractStyle.color :=
                 if isPrimaryView then "#333333" else "#888888";
               TractStyle.fillOpacity :=
                 if isPrimaryView then 7 # 10 else 3 # 10;
               TractStyle.dashArray :=
                 if isPrimaryView then None else Some "2" |}
        end
  end.

(* ================================================================== *)
(** ** Join and precinct styling *)

Definition candidateNames : list (string * string) :=
  [ ("cuomo-a", "Cuomo");
    ("lander-b", "Lander");
    ("mamdani-z", "Mamdani");
    ("ramos-j", "Ramos");
    ("stringer-s", "Stringer");
    ("blake-m", "Blake");
    ("myrie-z", "Myrie");
    ("tilson-w", "Tilson");
    ("adams-a", "Adams") ].

(** [candidateNames[candidate] || candidate], read among the own entries of
    the table (for the names of inherited members see
    [WithPrototype.displayName]). *)
Definition displayName (candidate : string) : string :=
  JS.or_else (JS.prop candidateNames candidate) candidate.

(** What [onEachPrecinct] interpolates for a derived value: a number printed
    with [toFixed(1)], a literal text, or nothing (the line is left out). *)
Inductive Shown : Type :=
| Pct (p : JS.num)
| Lit (s : string)
| Omitted.

(** The derived values of a precinct popup, by section. *)
Record PopupMetrics : Type := {
  el_overallTurnout : Shown;
  el_demTurnout : Shown;
  el_zohranSupport : Shown;
  el_winner : Shown;
  el_results : list (string * Z * Shown);
  reg_demPercentage : Shown;
  reg_repPercentage : Shown;
  reg_overallTurnout : Shown;
  reg_demTurnout : Shown
}.

Section Engine.

(** [results.precincts], in stored order. *)
Variable precincts : list PrecinctResult.

(** [getVoterCounts] of the registration data module: only its declaration
    [(district: number) => VoterCounts | undefined] is part of the sources,
    so the lookup is a parameter of the engine. *)
Variable getVoterCounts : Z -> option VoterCounts.t.

(** [getPrecinctResults(electDist)]. *)
Definition getPrecinctResults (electDist : Z) : Console (option PrecinctResult) :=
  let result :=
    find (fun p => (item_id p =? JS.toString electDist)%string) precincts in
  match result with
  | None => console_log (NoResultsFound electDist) ;;; ret result
  | Some _ => ret result
  end.

(** [stylePrecinctByResults(feature)]. *)
Definition stylePrecinctByResults (feature : Feature) : Console Style :=
  let electDist := ElectDist feature in
  precinctResults <- getPrecinctResults electDist ;;
  let winningCandidate := getWinningCandidate precinctResults in
  match precinctResults, winningCandidate with
  | Some r, Some w =>
      if JS.truthy w
      then ret (mkStyle (resultsFill (baseColorOf w) (winPercentage r w)))
      else ret (mkStyle noDataColor)
  | _, _ => ret (mkStyle noDataColor)
  end.

(** [stylePrecinctByTurnout(feature)]. *)
Definition stylePrecinctByTurnout (feature : Feature) : Console Style :=
  let electDist := ElectDist feature in
  precinctResults <- getPrecinctResults electDist ;;
  let voterData := getVoterCounts electDist in
  match precinctResults, voterData with
  | Some r, Some v =>
      if VoterCounts.democrats v =? 0 then ret (mkStyle noDataColor)
      else
        let demTurnoutPercentage :=
          percentOf (JS.ofZ (votes r)) (JS.ofZ (VoterCounts.democrats v)) in
        ret (mkStyle (turnoutFill demTurnoutPercentage))
  | _, _ => ret (mkStyle noDataColor)
  end.

(** [stylePrecinctByVoters(feature)]. *)
Definition stylePrecinctByVoters (feature : Feature) : Console Style :=
  let electDist := ElectDist feature in
  let voterData := getVoterCounts electDist in
  match voterData with
  | None => ret (mkStyle noDataColor)
  | Some v =>
      let demPercentage :=
        if VoterCounts.total v >? 0
        then percentOf (JS.ofZ (VoterCounts.democrats v))
                       (JS.ofZ (VoterCounts.total v))
        else JS.ofZ 0 in
      ret (mkStyle (votersFill demPercentage))
  end.

(** [zohranSupportPercentage] of [stylePrecinctByZohranSupport]. *)
Definition zohranSupportPercentage (r : PrecinctResult) (v : VoterCounts.t)
  : JS.num :=
  percentOf (JS.ofZ (zohranVotes r)) (JS.ofZ (VoterCounts.total v)).

(** [stylePrecinctByZohranSupport(feature)]. *)
Definition stylePrecinctByZohranSupport (feature : Feature) : Console Style :=
  let electDist := ElectDist feature in
  precinctResults <- getPrecinctResults electDist ;;
  let voterData := getVoterCounts electDist in
  match precinctResults, voterData with
  | Some r, Some v =>
      if VoterCounts.total v =? 0 then ret (mkStyle noDataColor)
      else ret (mkStyle (zohranFill (zohranSupportPercentage r v)))
  | _, _ => ret (mkStyle noDataColor)
  end.

(** The dispatcher [styleFunction] of [Map], applied to a feature. *)
Definition styleFunction (viewMode : ViewMode) (feature : Feature)
  : Console Style :=
  match viewMode with
  | election_results => stylePrecinctByResults feature
  | turnout => stylePrecinctByTurnout feature
  | zohran_support => stylePrecinctByZohranSupport feature
  | _ => stylePrecinctByVoters feature
  end.

(** [censusTractStyleWrapper] of [Map]. *)
Definition censusTractStyleWrapper (viewMode : ViewMode) (feature : TractFeature)
  : TractStyle.t :=
  styleCensusTract feature
    (match viewMode with age_demographics => true | _ => false end).

(** The derived values interpolated by [onEachPrecinct(feature, layer,
    viewMode)]; the markup around them is left out. *)
Definition onEachPrecinct (feature : Feature) (viewMode : ViewMode)
  : Console PopupMetrics :=
  let electDist := ElectDist feature in
  precinctResults <- getPrecinctResults electDist ;;
  let voterData := getVoterCounts electDist in
  let turnoutInfo :=
    match precinctResults, voterData with
    | Some r, Some v =>
        if VoterCounts.total v >? 0
        then Pct (percentOf (JS.ofZ (votes r)) (JS.ofZ (VoterCounts.total v)))
        else Omitted
    | _, _ => Omitted
    end in
  let demTurnoutInfo :=
    match precinctResults, voterData with
    | Some r, Some v =>
        if VoterCounts.democrats v >? 0
        then Pct (percentOf (JS.ofZ (votes r))
                            (JS.ofZ (VoterCounts.democrats v)))
        else Omitted
    | _, _ => Omitted
    end in
  let zohranSupportInfo :=
    match precinctResults, voterData with
    | Some r, Some v =>
        if VoterCounts.total v >? 0
        then Pct (zohranSupportPercentage r v)
        else Omitted
    | _, _ => Omitted
    end in
  let demPercentage :=
    match voterData with
    | Some v =>
        if VoterCounts.total v >? 0
        then Pct (percentOf (JS.ofZ (VoterCounts.democrats v))
                            (JS.ofZ (VoterCounts.total v)))
        else Lit "0"
    | None => Omitted
    end in
  let repPercentage :=
    match voterData with
    | Some v =>
        if VoterCounts.total v >? 0
        then Pct (percentOf (JS.ofZ (VoterCounts.republicans v))
                            (JS.ofZ (VoterCounts.total v)))
        else Lit "0"
    | None => Omitted
    end in
  let regTurnoutInfo :=
    match voterData, precinctResults with
    | Some v, Some r =>
        if votes r >? 0
        then Pct (percentOf (JS.ofZ (votes r)) (JS.ofZ (VoterCounts.total v)))
        else Omitted
    | _, _ => Omitted
    end in
  let regDemTurnoutInfo :=
    match voterData, precinctResults with
    | Some v, Some r =>
        if (votes r >? 0) && (VoterCounts.democrats v >? 0)
        then Pct (percentOf (JS.ofZ (votes r))
                            (JS.ofZ (VoterCounts.democrats v)))
        else Omitted
    | _, _ => Omitted
    end in
  let winner :=
    match precinctResults with
    | Some r =>
        match getWinningCandidate precinctResults with
        | Some w => if JS.truthy w then Lit (displayName w) else Lit "No data"
        | None => Lit "No data"
        end
    | None => Omitted
    end in
  let resultLines :=
    match precinctResults with
    | Some r =>
        map (fun entry : string * Z =>
               let (candidate, candidateVotes) := entry in
               (displayName candidate, candidateVotes,
                if votes r >? 0
                then Pct (percentOf (JS.ofZ candidateVotes) (JS.ofZ (votes r)))
                else Lit "0.0"))
            (rankedCandidates r)
    | None => []
    end in
  ret {| el_overallTurnout := turnoutInfo;
         el_demTurnout := demTurnoutInfo;
         el_zohranSupport :=
           match viewMode with
           | zohran_support => zohranSupportInfo
           | _ => Omitted
           end;
         el_winner := winner;
         el_results := resultLines;
         reg_demPercentage := demPercentage;
         reg_repPercentage := repPercentage;
         reg_overallTurnout := regTurnoutInfo;
         reg_demTurnout := regDemTurnoutInfo |}.

(** The earlier single-view component: [stylePrecinct(feature)].  Its
    [getPrecinctResults], [getWinningCandidate] and colour table are the ones
    above, word for word; [random] is the value [Math.random()] returns. *)
Definition stylePrecinct (random : Q) (feature : Feature) : Console Style :=
  let electDist := ElectDist feature in
  precinctResults <- getPrecinctResults electDist ;;
  let winningCandidate := getWinningCandidate precinctResults in
  (if negb (Qle_bool (1 # 100) random)
   then console_log
          (StylingPrecinct electDist
             (match precinctResults with Some _ => true | None => false end)
             winningCandidate
             (match precinctResults with
              | Some r => locality_name r
              | None => None
              end))
   else ret tt) ;;;
  ret (mkStyle
         (match winningCandidate with
          | Some w => if JS.truthy w then baseColorOf w else noDataColor
          | None => noDataColor
          end)).

End Engine.

(* ================================================================== *)
(** ** Property reads through the prototype *)

(** [candidateBaseColors] and [candidateNames] are object literals, so
    [table[key]] finds, beside the own entries, what every object inherits
    from [Object.prototype].  These are the names of the inherited
    members. *)
Definition objectPrototypeMembers : list string :=
  [ "constructor"; "hasOwnProperty"; "isPrototypeOf"; "propertyIsEnumerable";
    "toLocaleString"; "toString"; "valueOf"; "__proto__";
    "__defineGetter__"; "__defineSetter__";
    "__lookupGetter__"; "__lookupSetter__" ].

Definition inheritedMember (key : string) : bool :=
  existsb (String.eqb key) objectPrototypeMembers.

(** The results view with reads that see the prototype.  [baseColorOf] and
    [stylePrecinctByResults] above read own entries only; they agree with
    the functions of this module for every winner that is not the name of
    an inherited member (lemma [results_view_own_keys]). *)
Module WithPrototype.

(** What a read of such a table gives: a string of the table, or an
    inherited member: a function, for [__proto__] the prototype object.
    Either is an object: truthy, and without a [replace] method. *)
Inductive Value : Type :=
| Str (s : string)
| Member (name : string).

(** [table[key]]. *)
Definition read (table : list (string * string)) (key : string)
  : option Value :=
  match JS.prop table key with
  | Some s => Some (Str s)
  | None => if inheritedMember key then Some (Member key) else None
  end.

(** [v || d]. *)
Definition or_else (o : option Value) (d : string) : Value :=
  match o with
  | Some (Str s) => if JS.truthy s then Str s else Str d
  | Some (Member name) => Member name
  | None => Str d
  end.

(** A call returns, or throws a TypeError. *)
Inductive Completion (A : Type) : Type :=
| Returned (a : A)
| TypeError.
Arguments Returned {A} a.
Arguments TypeError {A}.

(** The style object, whose [fillColor] need not be a string. *)
Module Style.
Record t : Type := {
  fillColor : Value;
  weight : Q;
  opacity : Q;
  color : string;
  dashArray : string;
  fillOpacity : Q
}.
End Style.

Definition mkStyle (fill : Value) : Style.t :=
  {| Style.fillColor := fill;
     Style.weight := 1;
     Style.opacity := 1;
     Style.color := "white";
     Style.dashArray := "3";
     Style.fillOpacity := 7 # 10 |}.

(** A style whose fill is a string. *)
Definition ofStyle (s : Style) : Style.t :=
  {| Style.fillColor := Str (fillColor s);
     Style.weight := weight s;
     Style.opacity := opacity s;
     Style.color := color s;
     Style.dashArray := dashArray s;
     Style.fillOpacity := fillOpacity s |}.

(** [darkenColor(color, amount)]; its first statement calls
    [color.replace]. *)
Definition darkenColor (color : Value) (amount : float) : Completion Value :=
  match color with
  | Str c => Returned (Str (darkenColor c amount))
  | Member _ => TypeError
  end.

(** [lightenColor(color, amount)], likewise. *)
Definition lightenColor (color : Value) (amount : float) : Completion Value :=
  match color with
  | Str c => Returned (Str (lightenColor c amount))
  | Member _ => TypeError
  end.

(** [candidateBaseColors[winningCandidate] || "#cccccc"]. *)
Definition baseColorOf (winningCandidate : string) : Value :=
  or_else (read candidateBaseColors winningCandidate) noDataColor.

(** [candidateNames[candidate] || candidate]. *)
Definition displayName (candidate : string) : Value :=
  or_else (read candidateNames candidate) candidate.

(** The shading chain of the results view. *)
Definition resultsFill (baseColor : Value) (winPercentage : JS.num)
  : Completion Value :=
  if JS.ge winPercentage (JS.ofZ 80) then darkenColor baseColor 0.3
  else if JS.ge winPercentage (JS.ofZ 60) then darkenColor baseColor 0.2
  else if JS.ge winPercentage (JS.ofZ 50) then Returned baseColor
  else if JS.ge winPercentage (JS.ofZ 40) then lightenColor baseColor 0.2
  else lightenColor baseColor 0.4.

(** [stylePrecinctByResults(feature)]. *)
Definition stylePrecinctByResults (precincts : list PrecinctResult)
    (feature : Feature) : Console (Completion Style.t) :=
  let electDist := ElectDist feature in
  precinctResults <- getPrecinctResults precincts electDist ;;
  let winningCandidate := getWinningCandidate precinctResults in
  match precinctResults, winningCandidate with
  | Some r, Some w =>
      if JS.truthy w
      then
        match resultsFill (baseColorOf w) (winPercentage r w) with
        | Returned fill => ret (Returned (mkStyle fill))
        | TypeError => ret TypeError
        end
      else ret (Returned (mkStyle (Str noDataColor)))
  | _, _ => ret (Returned (mkStyle (Str noDataColor)))
  end.

(** The styling function chosen by the map for a view mode, applied to a
    feature.  The other three views read no table by a candidate key. *)
Definition styleFunction (precincts : list PrecinctResult)
    (getVoterCounts : Z -> option VoterCounts.t)
    (viewMode : ViewMode) (feature : Feature) : Console (Completion Style.t) :=
  match viewMode with
  | election_results => stylePrecinctByResults precincts feature
  | _ =>
      s <- styleFunction precincts getVoterCounts viewMode feature ;;
      ret (Returned (ofStyle s))
  end.

End WithPrototype.

(* ================================================================== *)
(** ** The Gen-Z share in binary64 *)

(** [calculateGenZPercentage] with the arithmetic of the code: the weights
    0.8 and 0.4, the running sum, the quotient and the product are binary64
    values.  Counts are integers below 2^53 in absolute value, which
    [JS.ofInt] converts exactly. *)
Module Binary64.

(** One iteration of the loop over [Object.entries(ageGroups)]. *)
Definition genZStep (genZCount : float) (entry : string * option AgeGroup.t)
  : float :=
  let (ageRange, data) := entry in
  match data with
  | Some {| AgeGroup.total := Some count |} =>
      if count >? 0 then
        if (ageRange =? "10 to 14 years")%string
        then genZCount + JS.ofInt count * 0.8
        else if (ageRange =? "15 to 19 years")%string
        then genZCount + JS.ofInt count
        else if (ageRange =? "20 to 24 years")%string
        then genZCount + JS.ofInt count
        else if (ageRange =? "25 to 29 years")%string
        then genZCount + JS.ofInt count * 0.4
        else genZCount
      else genZCount
  | _ => genZCount
  end%float.

Definition genZCount (groups : list (string * option AgeGroup.t)) : float :=
  fold_left genZStep groups 0%float.

(** [calculateGenZPercentage(ageGroups, totalPopulation)]. *)
Definition calculateGenZPercentage
    (ageGroups : option (list (string * option AgeGroup.t)))
    (totalPopulation : option Z) : option float :=
  match ageGroups, totalPopulation with
  | Some groups, Some population =>
      if population =? 0 then None
      else
        let count := genZCount groups in
        if PrimFloat.eqb count 0 then None
        else Some (count / JS.ofInt population * 100)%float
  | _, _ => None
  end.

(** The threshold chain of the age-demographics view. *)
Definition genZFill (genZPercentage : float) : string :=
  if PrimFloat.leb 30 genZPercentage then "#276419"
  else if PrimFloat.leb 25 genZPercentage then "#4d9221"
  else if PrimFloat.leb 20 genZPercentage then "#7fbc41"
  else if PrimFloat.leb 15 genZPercentage then "#b8e186"
  else if PrimFloat.leb 10 genZPercentage then "#f1b6da"
  else if PrimFloat.leb 5 genZPercentage then "#de77ae"
  else "#c51b7d".

End Binary64.

(* ================================================================== *)
(** ** Fixtures *)

Definition feature_of (electDist : Z) : Feature :=
  {| OBJECTID := 1; ElectDist := electDist; Shape__Area := 0; Shape__Length := 0 |}.

Definition voters_of (democrats republicans total : Z) : VoterCounts.t :=
  {| VoterCounts.district := 23001;
     VoterCounts.county := "Kings";
     VoterCounts.democrats := democrats;
     VoterCounts.republicans := republicans;
     VoterCounts.conservatives := 0;
     VoterCounts.working_families := 0;
     VoterCounts.other := 0;
     VoterCounts.blank := 0;
     VoterCounts.total := total |}.

Definition precinct_of (id : string) (votes : Z) (results : list (string * Z))
  : PrecinctResult :=
  {| item_id := id; votes := votes; results := results; locality_name := None |}.

(** A registration table that knows the single district [d]. *)
Definition registration_of (d : Z) (v : VoterCounts.t) (district : Z)
  : option VoterCounts.t :=
  if district =? d then Some v else None.

Definition no_registration (district : Z) : option VoterCounts.t := None.

(** A precinct where Cuomo wins with exactly half of the votes. *)
Definition precinct_half : PrecinctResult :=
  precinct_of "23001" 1000
    [("total_writeins", 0); ("cuomo-a", 500); ("mamdani-z", 300);
     ("lander-b", 200)].

(** A precinct with no vote for Mamdani recorded. *)
Definition precinct_without_mamdani : PrecinctResult :=
  precinct_of "23001" 100 [("cuomo-a", 60); ("lander-b", 40)].

(** A record whose only candidate key is the empty string. *)
Definition precinct_empty_key : PrecinctResult :=
  precinct_of "23001" 5 [("", 5)].

(** Two features of the same election district. *)
Definition feature_a : Feature :=
  {| OBJECTID := 1; ElectDist := 23001; Shape__Area := 5; Shape__Length := 9 |}.

Definition feature_b : Feature :=
  {| OBJECTID := 2; ElectDist := 23001; Shape__Area := 7; Shape__Length := 11 |}.

Definition bracket (name : string) (count : Z) : string * option AgeGroup.t :=
  (name, Some {| AgeGroup.total := Some count |}).

(** A tract of 100 inhabitants, 22 of them Gen-Z by the weighting. *)
Definition ageGroups_sample : list (string * option AgeGroup.t) :=
  [ bracket "5 to 9 years" 20;
    bracket "10 to 14 years" 10;
    bracket "15 to 19 years" 5;
    bracket "20 to 24 years" 5;
    bracket "25 to 29 years" 10;
    bracket "30 to 34 years" 50 ].



(** Records whose leading candidate key is the name of a member inherited
    from [Object.prototype]: with all the votes, and with 55 of 100. *)
Definition precinct_constructor : PrecinctResult :=
  precinct_of "23001" 5 [("constructor", 5)].

Definition precinct_constructor_moderate : PrecinctResult :=
  precinct_of "23001" 100 [("constructor", 55); ("cuomo-a", 45)].

(* ================================================================== *)
(** ** The specification's vocabulary *)

(** A bin of a threshold table: its bounds ([None]: unbounded), whether each
    bound belongs to the bin, and its colour. *)
Record Bin : Type := {
  lower : option Q;
  lower_closed : bool;
  upper : option Q;
  upper_closed : bool;
  bucket : string
}.

(** The convention of the specification: closed below, open above. *)
Definition halfOpen (lo hi : option Q) (c : string) : Bin :=
  {| lower := lo; lower_closed := true;
     upper := hi; upper_closed := false; bucket := c |}.

Definition inBin (p : Q) (b : Bin) : bool :=
  (match lower b with
   | None => true
   | Some lo => if lower_closed b then Qle_bool lo p else negb (Qle_bool p lo)
   end)
  &&
  (match upper b with
   | None => true
   | Some hi => if upper_closed b then Qle_bool p hi else negb (Qle_bool hi p)
   end).

(** The colour of the first bin that holds [p]. *)
Definition bucketOf (table : list Bin) (p : Q) : option string :=
  option_map bucket (find (inBin p) table).

(** How many bins hold [p]. *)
Definition binsHolding (table : list Bin) (p : Q) : nat :=
  List.length (filter (inBin p) table).

Definition turnoutBins : list Bin :=
  [ halfOpen None (Some 20) "#bee3f8";
    halfOpen (Some 20) (Some 30) "#90cdf4";
    halfOpen (Some 30) (Some 40) "#63b3ed";
    halfOpen (Some 40) (Some 50) "#3182ce";
    halfOpen (Some 50) (Some 60) "#2c5282";
    halfOpen (Some 60) None "#1a365d" ]%Q.

Definition votersBins : list Bin :=
  [ halfOpen None (Some 30) "#d62728";
    halfOpen (Some 30) (Some 40) "#ff7f0e";
    halfOpen (Some 40) (Some 50) "#ffbb78";
    halfOpen (Some 50) (Some 60) "#aec7e8";
    halfOpen (Some 60) (Some 70) "#1f77b4";
    halfOpen (Some 70) None "#0d47a1" ]%Q.

(** The eight bins of the Zohran-support view under the convention of the
    specification (every bin closed below and open above). *)
Definition zohranBinsHalfOpen : list Bin :=
  [ halfOpen None (Some 0) "#c51b7d";
    halfOpen (Some 0) (Some (5 # 2)) "#de77ae";
    halfOpen (Some (5 # 2)) (Some 5) "#f1b6da";
    halfOpen (Some 5) (Some (15 # 2)) "#d9f0a3";
    halfOpen (Some (15 # 2)) (Some 10) "#b8e186";
    halfOpen (Some 10) (Some 15) "#7fbc41";
    halfOpen (Some 15) (Some 20) "#4d9221";
    halfOpen (Some 20) None "#276419" ]%Q.

(** The same eight bins with the boundary 0 as the code draws it: 0 belongs
    to the bottom bin. *)
Definition zohranBins : list Bin :=
  [ {| lower := None; lower_closed := true;
       upper := Some 0; upper_closed := true; bucket := "#c51b7d" |};
    {| lower := Some 0; lower_closed := false;
       upper := Some (5 # 2); upper_closed := false; bucket := "#de77ae" |};
    halfOpen (Some (5 # 2)) (Some 5) "#f1b6da";
    halfOpen (Some 5) (Some (15 # 2)) "#d9f0a3";
    halfOpen (Some (15 # 2)) (Some 10) "#b8e186";
    halfOpen (Some 10) (Some 15) "#7fbc41";
    halfOpen (Some 15) (Some 20) "#4d9221";
    halfOpen (Some 20) None "#276419" ]%Q.

Definition isHalfOpen (b : Bin) : bool :=
  lower_closed b && negb (upper_closed b).

(** The five tiers of the results view. *)
Inductive Tier : Type :=
| VeryWeak
| Weak
| Moderate
| Strong
| VeryStrong.

Definition inTier (p : Q) (t : Tier) : Prop :=
  match t with
  | VeryWeak => p < 40
  | Weak => 40 <= p /\ p < 50
  | Moderate => 50 <= p /\ p < 60
  | Strong => 60 <= p /\ p < 80
  | VeryStrong => 80 <= p
  end%Q.

Definition shade (baseColor : string) (t : Tier) : string :=
  match t with
  | VeryWeak => lightenColor baseColor 0.4
  | Weak => lightenColor baseColor 0.2
  | Moderate => baseColor
  | Strong => darkenColor baseColor 0.2
  | VeryStrong => darkenColor baseColor 0.3
  end.

(** Which records a view joins. *)
Definition needsElection (viewMode : ViewMode) : bool :=
  match viewMode with
  | election_results | turnout | zohran_support => true
  | _ => false
  end.

Definition needsRegistration (viewMode : ViewMode) : bool :=
  match viewMode with
  | election_results => false
  | _ => true
  end.

(** A colour of the form [#rrggbb]. *)
Definition isHexColor (c : string) : bool :=
  match c with
  | String h digits =>
      Ascii.eqb h "#"%char
      && (String.length digits =? 6)%nat
      && forallb
           (fun d => match JS.hexDigit d with Some _ => true | None => false end)
           (list_ascii_of_string digits)
  | EmptyString => false
  end.

(** [count(bracket)]: the positive total recorded for a bracket, 0 when the
    bracket is missing or carries no positive total. *)
Definition countOf (groups : list (string * option AgeGroup.t))
    (bracket : string) : Z :=
  match JS.prop groups bracket with
  | Some (Some {| AgeGroup.total := Some count |}) => Z.max count 0
  | _ => 0
  end.

(** The weighted Gen-Z count of the specification. *)
Definition genZWeightedCount (groups : list (string * option AgeGroup.t)) : Q :=
  ((8 # 10) * inject_Z (countOf groups "10 to 14 years")
   + inject_Z (countOf groups "15 to 19 years")
   + inject_Z (countOf groups "20 to 24 years")
   + (4 # 10) * inject_Z (countOf groups "25 to 29 years"))%Q.

(** [k] is the first key, in mapping order, among those with the most
    votes: every earlier entry has strictly fewer votes, no later entry has
    more. *)
Definition firstMaximum (l : list (string * Z)) (k : string) : Prop :=
  exists before v after,
    l = (before ++ (k, v) :: after)%list
    /\ Forall (fun kv => snd kv < v) before
    /\ Forall (fun kv => snd kv <= v) after.

(** A feature whose winner, if it has one, is not the name of a member
    inherited from [Object.prototype]. *)
Definition ownWinner (precincts : list PrecinctResult) (f : Feature) : Prop :=
  forall r w,
    value (getPrecinctResults precincts (ElectDist f)) = Some r ->
    getWinningCandidate (Some r) = Some w ->
    inheritedMember w = false.

(** The overall turnout of a precinct: votes cast over registered voters,
    in percent. *)
Definition overallTurnout (r : PrecinctResult) (v : VoterCounts.t) : JS.num :=
  percentOf (JS.ofZ (votes r)) (JS.ofZ (VoterCounts.total v)).

(** The four brackets of the Gen-Z weighting. *)
Definition genZBrackets : list string :=
  [ "10 to 14 years"; "15 to 19 years"; "20 to 24 years"; "25 to 29 years" ].

(** The entries of the age groups that count: one of the four brackets,
    with a positive total; in the order of the mapping. *)
Definition genZEntries (groups : list (string * option AgeGroup.t))
  : list (string * Z) :=
  flat_map
    (fun entry : string * option AgeGroup.t =>
       match entry with
       | (ageRange, Some {| AgeGroup.total := Some count |}) =>
           if (count >? 0) && existsb (String.eqb ageRange) genZBrackets
           then [(ageRange, count)]
           else []
       | _ => []
       end)
    groups.




(* ================================================================== *)
(** ** County aggregation of the registration data *)

(** A precinct feature with its registration record attached
    ([PrecinctWithVoterData]): the properties of the feature, and
    [voterCounts]. *)
Record PrecinctWithVoterData : Type := {
  base : Feature;
  voterCounts : option VoterCounts.t
}.

(** The totals by party returned by [getCountyVoterTotals]. *)
Module VoterTotals.
Record t : Type := {
  democrats : Z;
  republicans : Z;
  conservatives : Z;
  working_families : Z;
  other : Z;
  blank : Z;
  total : Z
}.
End VoterTotals.

Definition zeroTotals : VoterTotals.t :=
  {| VoterTotals.democrats := 0;
     VoterTotals.republicans := 0;
     VoterTotals.conservatives := 0;
     VoterTotals.working_families := 0;
     VoterTotals.other := 0;
     VoterTotals.blank := 0;
     VoterTotals.total := 0 |}.

(** The body of the reducer of [getCountyVoterTotals]. *)
Definition addPrecinctTotals (totals : VoterTotals.t)
    (precinct : PrecinctWithVoterData) : VoterTotals.t :=
  match voterCounts precinct with
  | Some voterData =>
      {| VoterTotals.democrats :=
           VoterTotals.democrats totals + VoterCounts.democrats voterData;
         VoterTotals.republicans :=
           VoterTotals.republicans totals + VoterCounts.republicans voterData;
         VoterTotals.conservatives :=
           VoterTotals.conservatives totals
           + VoterCounts.conservatives voterData;
         VoterTotals.working_families :=
           VoterTotals.working_families totals
           + VoterCounts.working_families voterData;
         VoterTotals.other :=
           VoterTotals.other totals + VoterCounts.other voterData;
         VoterTotals.blank :=
           VoterTotals.blank totals + VoterCounts.blank voterData;
         VoterTotals.total :=
           VoterTotals.total totals + VoterCounts.total voterData |}
  | None => totals
  end.

Section CountyAggregation.

(** [precincts.features] of the precinct geometry module, in stored
    order. *)
Variable precinctFeatures : list Feature.

Variable getVoterCounts : Z -> option VoterCounts.t.

(** [addVoterDataToPrecincts()]. *)
Definition addVoterDataToPrecincts : list PrecinctWithVoterData :=
  map (fun feature =>
         let electDist := ElectDist feature in
         let voterData := getVoterCounts electDist in
         {| base := feature; voterCounts := voterData |})
      precinctFeatures.

(** [getPrecinctsByCountyWithVoterData(county)]; the test is
    [precinct.properties.voterCounts?.county === county]. *)
Definition getPrecinctsByCountyWithVoterData (county : string)
  : list PrecinctWithVoterData :=
  filter (fun precinct =>
            match voterCounts precinct with
            | Some v => (VoterCounts.county v =? county)%string
            | None => false
            end)
         addVoterDataToPrecincts.

(** [getCountyVoterTotals(county)]. *)
Definition getCountyVoterTotals (county : string) : VoterTotals.t :=
  fold_left addPrecinctTotals (getPrecinctsByCountyWithVoterData county)
    zeroTotals.

End CountyAggregation.

(* ================================================================== *)
(** ** Matching statistics of the map *)

(** The object logged as "Matching statistics:" by [Map]. *)
Record MatchingStatistics : Type := {
  totalElectionDistricts : Z;
  totalResults : Z;
  matchedCount : Z;
  matchPercentage : Shown
}.

(** The test of the filter: [results.precincts.some((r) => r.item_id ===
    f.properties?.ElectDist?.toString())]. *)
Definition hasResults (precincts : list PrecinctResult) (f : Feature) : bool :=
  existsb (fun r => (item_id r =? JS.toString (ElectDist f))%string) precincts.

(** The statistics computed by [Map] from [electionDistricts.features] and
    [results.precincts]; [Pct p] stands for [p.toFixed(1) + "%"]. *)
Definition matchingStatistics (features : list Feature)
    (precincts : list PrecinctResult) : MatchingStatistics :=
  let totalElectionDistricts := Z.of_nat (List.length features) in
  let totalResults := Z.of_nat (List.length precincts) in
  let matchedCount :=
    Z.of_nat (List.length (filter (hasResults precincts) features)) in
  {| totalElectionDistricts := totalElectionDistricts;
     totalResults := totalResults;
     matchedCount := matchedCount;
     matchPercentage :=
       if totalElectionDistricts >? 0
       then Pct (percentOf (JS.ofZ matchedCount) (JS.ofZ totalElectionDistricts))
       else Lit "0%" |}.

(* ================================================================== *)
(** ** Popup of a census tract *)

(** The properties of a census-tract feature that the popup reads besides
    those of [TractProps]. *)
Record TractPopupProps : Type := {
  tractProps : TractProps;
  NAME : option string;
  CTLabel : option string;
  totalPopulationMOE : option Z;
  selectedAgeCategories : option (list (string * option AgeGroup.t))
}.

(** The values interpolated by [onEachCensusTract]. *)
Record TractPopup : Type := {
  tp_name : string;
  tp_totalPopulation : option Z;
  tp_marginOfError : option Z;
  tp_genZ : Shown;
  tp_ageDistribution : list (string * Z * Shown);
  tp_selectedCategories : list (string * Z * Shown)
}.

(** The lines of a list of the popup: one per key whose entry carries a
    total, with [totalPop > 0 ? ((data.total / totalPop) * 100).toFixed(1) :
    "0.0"]. *)
Definition tractLines (groups : option (list (string * option AgeGroup.t)))
    (totalPop : Z) : list (string * Z * Shown) :=
  match groups with
  | None => []
  | Some entries =>
      flat_map
        (fun key =>
           match JS.prop entries key with
           | Some (Some {| AgeGroup.total := Some n |}) =>
               [(key, n,
                 if totalPop >? 0
                 then Pct (percentOf (JS.ofZ n) (JS.ofZ totalPop))
                 else Lit "0.0")]
           | _ => []
           end)
        (map fst entries)
  end.

(** The derived values of [onEachCensusTract(feature, layer)]; the markup
    around them is left out. *)
Definition onEachCensusTract (props : option TractPopupProps) : TractPopup :=
  let totalPop :=
    match props with
    | Some p => totalPopulation (tractProps p)
    | None => None
    end in
  let name :=
    JS.or_else
      (match props with Some p => NAME p | None => None end)
      (JS.or_else
         (match props with Some p => CTLabel p | None => None end)
         "Unknown") in
  let genZPercentage :=
    calculateGenZPercentage
      (match props with Some p => ageGroups (tractProps p) | None => None end)
      (Some (match totalPop with Some n => n | None => 0 end)) in
  match totalPop with
  | None =>
      {| tp_name := name;
         tp_totalPopulation := None;
         tp_marginOfError := None;
         tp_genZ := Omitted;
         tp_ageDistribution := [];
         tp_selectedCategories := [] |}
  | Some pop =>
      {| tp_name := name;
         tp_totalPopulation := Some pop;
         tp_marginOfError :=
           match props with
           | Some p =>
               match totalPopulationMOE p with
               | Some moe => if moe =? 0 then None else Some moe
               | None => None
               end
           | None => None
           end;
         tp_genZ :=
           match genZPercentage with
           | Some pct => Pct pct
           | None => Omitted
           end;
         tp_ageDistribution :=
           tractLines
             (match props with
              | Some p => ageGroups (tractProps p)
              | None => None
              end) pop;
         tp_selectedCategories :=
           tractLines
             (match props with
              | Some p => selectedAgeCategories p
              | None => None
              end) pop |}
  end.

(** The census-tract feature as [styleCensusTract] reads it. *)
Definition tractFeatureOf (props : option TractPopupProps) : TractFeature :=
  {| properties := option_map tractProps props |}.

(* ================================================================== *)
(** ** More vocabulary *)

(** The seven bins of the age-demographics view. *)
Definition genZBins : list Bin :=
  [ halfOpen None (Some 5) "#c51b7d";
    halfOpen (Some 5) (Some 10) "#de77ae";
    halfOpen (Some 10) (Some 15) "#f1b6da";
    halfOpen (Some 15) (Some 20) "#b8e186";
    halfOpen (Some 20) (Some 25) "#7fbc41";
    halfOpen (Some 25) (Some 30) "#4d9221";
    halfOpen (Some 30) None "#276419" ]%Q.

(** The position of a colour in a ramp (the length of the ramp when the
    colour is not in it). *)
Fixpoint rampIndex (ramp : list string) (c : string) : nat :=
  match ramp with
  | [] => O
  | c' :: ramp' => if (c' =? c)%string then O else S (rampIndex ramp' c)
  end.

(** The three channels of a colour, read the way the colour helpers read
    them. *)
Definition channelOf (color : string) (start : nat) : option Z :=
  JS.parseHexDigits (JS.substr (JS.removeFirstHash color) start 2) None.

Definition channels (color : string) : option (Z * Z * Z) :=
  match channelOf color 0, channelOf color 2, channelOf color 4 with
  | Some r, Some g, Some b => Some (r, g, b)
  | _, _, _ => None
  end.

(** Channel by channel, [x] is at most [y]. *)
Definition darkerOrEqual (x y : Z * Z * Z) : Prop :=
  let '(r, g, b) := x in
  let '(r', g', b') := y in
  r <= r' /\ g <= g' /\ b <= b'.

(** The characters [parseInt(_, 16)] reads as digits. *)
Definition hexChars : list ascii :=
  list_ascii_of_string "0123456789abcdefABCDEF".

(** Field by field, the sum of two totals. *)
Definition plusTotals (a b : VoterTotals.t) : VoterTotals.t :=
  {| VoterTotals.democrats := VoterTotals.democrats a + VoterTotals.democrats b;
     VoterTotals.republicans :=
       VoterTotals.republicans a + VoterTotals.republicans b;
     VoterTotals.conservatives :=
       VoterTotals.conservatives a + VoterTotals.conservatives b;
     VoterTotals.working_families :=
       VoterTotals.working_families a + VoterTotals.working_families b;
     VoterTotals.other := VoterTotals.other a + VoterTotals.other b;
     VoterTotals.blank := VoterTotals.blank a + VoterTotals.blank b;
     VoterTotals.total := VoterTotals.total a + VoterTotals.total b |}.

(** The registration record of a feature is of the county. *)
Definition inCounty (getVoterCounts : Z -> option VoterCounts.t)
    (county : string) (f : Feature) : bool :=
  match getVoterCounts (ElectDist f) with
  | Some v => (VoterCounts.county v =? county)%string
  | None => false
  end.

(** The parties of a record sum to at most its total. *)
Definition partiesWithinTotal (v : VoterCounts.t) : Prop :=
  VoterCounts.democrats v + VoterCounts.republicans v
  + VoterCounts.conservatives v + VoterCounts.working_families v
  + VoterCounts.other v + VoterCounts.blank v
  <= VoterCounts.total v.

(** One channel of [darkenColor] and of [lightenColor], from the parsed
    value to the two characters printed. *)
Definition darkChannel (amount : float) (x : float) : string :=
  hex2 (JS.Math_max 0 (JS.Math_floor (x * (1 - amount)))).

Definition lightChannel (amount : float) (x : float) : string :=
  hex2 (JS.Math_min 255 (JS.Math_floor (x + (255 - x) * amount))).

(** The value of a string of exactly two hexadecimal digits. *)
Definition twoHex (s : string) : option Z :=
  match s with
  | String x (String y EmptyString) =>
      match JS.hexDigit x, JS.hexDigit y with
      | Some a, Some b => Some (16 * a + b)
      | _, _ => None
      end
  | _ => None
  end.

(** The four shades of a channel are two-digit values in the order
    darken 0.3, darken 0.2, the channel, lighten 0.2, lighten 0.4, within
    0..255. *)
Definition channelOrdered (s : string) : bool :=
  let x := JS.parseInt16 s in
  match twoHex s,
        twoHex (darkChannel 0.3 x), twoHex (darkChannel 0.2 x),
        twoHex (lightChannel 0.2 x), twoHex (lightChannel 0.4 x) with
  | Some v, Some d3, Some d2, Some l2, Some l4 =>
      (0 <=? d3) && (d3 <=? d2) && (d2 <=? v)
      && (v <=? l2) && (l2 <=? l4) && (l4 <=? 255)
  | _, _, _, _, _ => false
  end.

(** Amount 0 prints the channel back and amount 1 gives the extremes. *)
Definition channelExtremes (s : string) : bool :=
  let x := JS.parseInt16 s in
  match twoHex s, twoHex (darkChannel 0 x) with
  | Some v, Some v' =>
      (v =? v')
      && (lightChannel 0 x =? darkChannel 0 x)%string
      && (darkChannel 1 x =? "00")%string
      && (lightChannel 1 x =? "ff")%string
  | _, _ => false
  end.

Definition isHexChar (c : ascii) : bool :=
  match JS.hexDigit c with Some _ => true | None => false end.

(** Non-increasing votes along a ranking. *)
Definition votesDescending (l : list (string * Z)) : Prop :=
  StronglySorted (fun x y => snd y <= snd x) l.

(* ================================================================== *)
(** ** Numbers: comparisons and percentages *)

Lemma ge_Fin (x y : Q) : JS.ge (JS.Fin x) (JS.Fin y) = Qle_bool y x.
Proof.
  unfold JS.ge, JS.compare, Qle_bool, Qcompare.
  rewrite Z.leb_compare, (Z.compare_antisym (Qnum x * QDen y)).
  destruct (Qnum x * QDen y ?= Qnum y * QDen x); reflexivity.
Qed.

Lemma lt_Fin (x y : Q) : JS.lt (JS.Fin x) (JS.Fin y) = negb (Qle_bool y x).
Proof.
  unfold JS.lt, JS.compare, Qle_bool, Qcompare.
  rewrite Z.leb_compare, (Z.compare_antisym (Qnum x * QDen y)).
  destruct (Qnum x * QDen y ?= Qnum y * QDen x); reflexivity.
Qed.

Lemma gt_Fin (x y : Q) : JS.gt (JS.Fin x) (JS.Fin y) = negb (Qle_bool x y).
Proof. unfold JS.gt. apply lt_Fin. Qed.

Lemma Qle_bool_false (x y : Q) : Qle_bool x y = false <-> (y < x)%Q.
Proof.
  split; intro H.
  - apply Qnot_le_lt. intro L. apply Qle_bool_iff in L. congruence.
  - destruct (Qle_bool x y) eqn:E; [| reflexivity].
    apply Qle_bool_iff in E. apply Qlt_not_le in H. contradiction.
Qed.

Lemma Qsign_inject_Z (z : Z) : JS.Qsign (inject_Z z) = (z ?= 0).
Proof.
  unfold JS.Qsign, Qcompare. simpl. now rewrite Z.mul_1_r.
Qed.

(** A percentage against a non-zero count is a finite number. *)
Lemma percentOf_nonzero (x : Q) (d : Z) :
  d <> 0 ->
  percentOf (JS.Fin x) (JS.ofZ d) = JS.Fin (x / inject_Z d * inject_Z 100).
Proof.
  intro Hd. unfold percentOf, JS.ofZ, JS.div.
  rewrite Qsign_inject_Z.
  destruct (Z.compare_spec d 0); [contradiction | reflexivity | reflexivity].
Qed.

(** Splits on the next comparison of a rational with a threshold, keeping
    only the consistent cases. *)
Ltac split_thresholds :=
  repeat match goal with
    | |- context [Qle_bool ?a ?b] =>
        let E := fresh "E" in
        destruct (Qle_bool a b) eqn:E;
        [ apply Qle_bool_iff in E | apply Qle_bool_false in E ];
        cbn [negb andb orb]; try (exfalso; lra)
    end.

(* ================================================================== *)
(** ** Threshold tables *)

Lemma turnoutFill_bins (p : Q) :
  bucketOf turnoutBins p = Some (turnoutFill (JS.Fin p))
  /\ binsHolding turnoutBins p = 1%nat.
Proof.
  unfold turnoutFill, JS.ofZ, inject_Z. rewrite !ge_Fin.
  unfold bucketOf, binsHolding, turnoutBins, inBin, halfOpen.
  cbn -[Qle_bool]. split_thresholds; split; reflexivity.
Qed.

Lemma votersFill_bins (p : Q) :
  bucketOf votersBins p = Some (votersFill (JS.Fin p))
  /\ binsHolding votersBins p = 1%nat.
Proof.
  unfold votersFill, JS.ofZ, inject_Z. rewrite !lt_Fin.
  unfold bucketOf, binsHolding, votersBins, inBin, halfOpen.
  cbn -[Qle_bool]. split_thresholds; split; reflexivity.
Qed.

Lemma zohranFill_bins (p : Q) :
  bucketOf zohranBins p = Some (zohranFill (JS.Fin p))
  /\ binsHolding zohranBins p = 1%nat.
Proof.
  unfold zohranFill, JS.ofZ, inject_Z. rewrite !ge_Fin, gt_Fin.
  unfold bucketOf, binsHolding, zohranBins, inBin, halfOpen.
  cbn -[Qle_bool]. split_thresholds; split; reflexivity.
Qed.

(* ================================================================== *)
(** ** Ranking of candidates *)

Lemma insert_not_nil {A : Type} (cmp : A -> A -> Z) (x : A) (l : list A) :
  JS.insert cmp x l <> [].
Proof. destruct l as [| y l]; simpl; [| destruct (cmp x y >? 0)]; discriminate. Qed.

Lemma sort_nil_inv {A : Type} (cmp : A -> A -> Z) (l : list A) :
  JS.sort cmp l = [] -> l = [].
Proof.
  destruct l as [| x l]; [reflexivity |].
  simpl. intro H. now apply insert_not_nil in H.
Qed.

Lemma sort_In {A : Type} (cmp : A -> A -> Z) (l : list A) (x : A) :
  In x (JS.sort cmp l) -> In x l.
Proof.
  revert x. induction l as [| y l IH]; intros x; simpl; [tauto |].
  assert (Hins : forall s, In x (JS.insert cmp y s) -> x = y \/ In x s).
  { induction s as [| z s IHs]; simpl.
    - intuition.
    - destruct (cmp y z >? 0); simpl; intuition. }
  intro H. apply Hins in H. destruct H as [-> | H]; auto.
Qed.

(** The head of the ranking is the first entry, in mapping order, among
    those with the most votes. *)
Lemma sort_head_first_max (l : list (string * Z)) :
  forall k v rest,
    JS.sort byVotesDesc l = (k, v) :: rest ->
    exists before after,
      l = (before ++ (k, v) :: after)%list
      /\ Forall (fun kv => snd kv < v) before
      /\ Forall (fun kv => snd kv <= v) after.
Proof.
  induction l as [| [kx vx] l IH]; intros k v rest; simpl; [discriminate |].
  destruct (JS.sort byVotesDesc l) as [| [ky vy] s] eqn:Hs.
  - apply sort_nil_inv in Hs. subst l. simpl. intros [= <- <- <-].
    exists [], []. repeat split; constructor.
  - destruct (IH ky vy s eq_refl) as (before & after & Hl & Hb & Ha).
    simpl. unfold byVotesDesc at 1. simpl.
    destruct (vy - vx >? 0) eqn:Hc; intros [= <- <- <-].
    + exists ((kx, vx) :: before), after. subst l. repeat split; auto.
      constructor; auto. simpl. lia.
    + exists [], l. repeat split; [constructor |].
      assert (vy <= vx) by lia.
      subst l. apply Forall_app. split.
      * eapply Forall_impl; [| exact Hb]. simpl. intros; lia.
      * constructor; [simpl; lia |].
        eapply Forall_impl; [| exact Ha]. simpl. intros; lia.
Qed.

Lemma getWinningCandidate_ranked (r : PrecinctResult) :
  getWinningCandidate (Some r) =
  match rankedCandidates r with
  | [] => None
  | (key, _) :: _ => if JS.truthy key then Some key else None
  end.
Proof. reflexivity. Qed.

Lemma truthy_iff (s : string) : JS.truthy s = true <-> s <> "".
Proof.
  unfold JS.truthy. destruct (String.eqb_spec s ""); simpl; split; congruence.
Qed.

Lemma prop_In {A : Type} (o : list (string * A)) (k : string) (v : A) :
  In (k, v) o -> exists v', JS.prop o k = Some v'.
Proof.
  induction o as [| [k' v'] o IH]; simpl; [tauto |].
  intros [[= -> ->] | H].
  - rewrite String.eqb_refl. eauto.
  - destruct (k' =? k)%string; eauto.
Qed.

(** A winner is a key of the candidate mapping, other than the write-in
    key and the empty string. *)
Lemma winner_in_results (r : PrecinctResult) (w : string) :
  getWinningCandidate (Some r) = Some w ->
  w <> "" /\ w <> writeInKey /\ exists v, In (w, v) (results r).
Proof.
  rewrite getWinningCandidate_ranked.
  destruct (rankedCandidates r) as [| [k v] rest] eqn:Hr; [discriminate |].
  destruct (JS.truthy k) eqn:Ht; [| discriminate].
  intros [= <-]. apply truthy_iff in Ht.
  assert (Hin : In (k, v) (candidateEntries r)).
  { apply (sort_In byVotesDesc). unfold rankedCandidates in Hr.
    rewrite Hr. now left. }
  apply filter_In in Hin. destruct Hin as [Hin Hk]. simpl in Hk.
  repeat split; eauto.
  intros ->. now rewrite String.eqb_refl in Hk.
Qed.

Lemma first_max_unique (before : list (string * Z)) :
  forall kv after before' kv' after',
    (before ++ kv :: after)%list = (before' ++ kv' :: after')%list ->
    Forall (fun e => snd e < snd kv) before ->
    Forall (fun e => snd e <= snd kv) after ->
    Forall (fun e => snd e < snd kv') before' ->
    Forall (fun e => snd e <= snd kv') after' ->
    kv = kv'.
Proof.
  induction before as [| x before IH];
    intros kv after [| x' before'] kv' after' Heq Hb Ha Hb' Ha'; simpl in Heq.
  - now injection Heq.
  - injection Heq as -> ->. exfalso.
    apply Forall_inv in Hb'.
    assert (Hin : In kv' (before' ++ kv' :: after')%list)
      by (apply in_or_app; right; now left).
    rewrite Forall_forall in Ha. specialize (Ha _ Hin). lia.
  - injection Heq as -> <-. exfalso.
    apply Forall_inv in Hb.
    assert (Hin : In kv (before ++ kv :: after)%list)
      by (apply in_or_app; right; now left).
    rewrite Forall_forall in Ha'. specialize (Ha' _ Hin). lia.
  - injection Heq as -> Heq.
    apply (IH kv after before' kv' after' Heq);
      auto; eapply Forall_inv_tail; eauto.
Qed.

(** The head of the ranking, characterised. *)
Lemma ranked_head_iff (r : PrecinctResult) (k : string) :
  (exists v rest, rankedCandidates r = (k, v) :: rest)
  <-> firstMaximum (candidateEntries r) k.
Proof.
  unfold rankedCandidates, firstMaximum. split.
  - intros (v & rest & H).
    destruct (sort_head_first_max _ _ _ _ H) as (b & a & ? & ? & ?).
    exists b, v, a. auto.
  - intros (b & v & a & Hl & Hb & Ha).
    destruct (JS.sort byVotesDesc (candidateEntries r)) as [| [k' v'] rest] eqn:Hs.
    + apply sort_nil_inv in Hs. rewrite Hs in Hl. now destruct b.
    + destruct (sort_head_first_max _ _ _ _ Hs) as (b' & a' & Hl' & Hb' & Ha').
      rewrite Hl in Hl'.
      assert (E : (k, v) = (k', v'))
        by (eapply (first_max_unique b); eauto).
      injection E as -> ->. eauto.
Qed.

(** What [getWinningCandidate] returns for every election record: null
    if and only if the candidate mapping with the write-in key removed is
    empty or its first key of maximal vote count is the empty string;
    otherwise the key with the maximal vote count among the non-write-in
    keys, the first one in the order of [Object.entries] when several keys
    tie at the maximum. *)
Lemma winner_first_maximum (r : PrecinctResult) :
  (getWinningCandidate (Some r) = None
   <-> candidateEntries r = [] \/ firstMaximum (candidateEntries r) "")
  /\ (forall w,
        getWinningCandidate (Some r) = Some w
        <-> w <> "" /\ firstMaximum (candidateEntries r) w).
Proof.
  rewrite getWinningCandidate_ranked. split; [| intro w]; split.
  - destruct (rankedCandidates r) as [| [k v] rest] eqn:Hr.
    + intros _. left. now apply sort_nil_inv in Hr.
    + destruct (JS.truthy k) eqn:Ht; [discriminate |]. intros _. right.
      assert (k = "").
      { destruct (String.eqb_spec k ""); [assumption |].
        apply truthy_iff in n. congruence. }
      subst k. apply ranked_head_iff. eauto.
  - intros [He | Hm].
    + unfold rankedCandidates. now rewrite He.
    + apply ranked_head_iff in Hm. destruct Hm as (v & rest & ->). reflexivity.
  - destruct (rankedCandidates r) as [| [k v] rest] eqn:Hr; [discriminate |].
    destruct (JS.truthy k) eqn:Ht; [| discriminate].
    intros [= <-]. split; [now apply truthy_iff |].
    apply ranked_head_iff. eauto.
  - intros [Hw Hm]. apply ranked_head_iff in Hm.
    destruct Hm as (v & rest & ->).
    apply truthy_iff in Hw. now rewrite Hw.
Qed.

(** C2.  The election record whose only candidate key is the empty
    string: with the write-in key removed its candidate mapping is not
    empty, and the empty string is its key of maximal vote count, the first
    and only one; yet [getWinningCandidate] returns null, because
    [candidates[0]?.[0] || null] takes the empty key for a missing one. *)
Theorem winner_of_empty_key :
  candidateEntries precinct_empty_key = [("", 5)]
  /\ firstMaximum (candidateEntries precinct_empty_key) ""
  /\ getWinningCandidate (Some precinct_empty_key) = None.
Proof.
  split; [reflexivity |]. split; [| reflexivity].
  exists [], 5, []. repeat split; constructor.
Qed.

(** A tie at the maximum goes to the first key in mapping order, and the
    write-in key never wins. *)
Example winner_tie_first :
  getWinningCandidate
    (Some (precinct_of "23001" 22
             [("total_writeins", 9); ("lander-b", 3);
              ("mamdani-z", 5); ("cuomo-a", 5)]))
  = Some "mamdani-z".
Proof. reflexivity. Qed.

(* ================================================================== *)
(** ** Console and join *)

Lemma value_bind {A B : Type} (m : Console A) (k : A -> Console B) :
  value (bind m k) = value (k (value m)).
Proof. destruct m as [a l]. unfold bind, value. simpl. now destruct (k a). Qed.

Lemma value_ret {A : Type} (a : A) : value (ret a) = a.
Proof. reflexivity. Qed.

Lemma find_first_match {A : Type} (f : A -> bool) (l : list A) :
  match find f l with
  | Some x =>
      exists before after,
        l = (before ++ x :: after)%list
        /\ f x = true
        /\ Forall (fun y => f y = false) before
  | None => Forall (fun y => f y = false) l
  end.
Proof.
  induction l as [| y l IH]; simpl; [constructor |].
  destruct (f y) eqn:Hy.
  - exists [], l. repeat split; auto.
  - destruct (find f l) as [x |].
    + destruct IH as (before & after & -> & Hx & Hb).
      exists (y :: before), after. repeat split; auto.
    + constructor; auto.
Qed.

Section Properties.

Variable precincts : list PrecinctResult.
Variable getVoterCounts : Z -> option VoterCounts.t.

Lemma getPrecinctResults_value (electDist : Z) :
  value (getPrecinctResults precincts electDist)
  = find (fun p => (item_id p =? JS.toString electDist)%string) precincts.
Proof.
  unfold getPrecinctResults.
  destruct (find _ precincts); [reflexivity |].
  now rewrite value_bind.
Qed.

(** C8.  [getPrecinctResults] returns the first record, in stored order,
    whose [item_id] is the decimal string of the queried identifier: the
    records before it have another [item_id]; when some record carries the
    identifier a record with that [item_id] is returned; when none does the
    result is [undefined] (and a line is logged), not an exception. *)
Theorem getPrecinctResults_first_match (electDist : Z) :
  let key := JS.toString electDist in
  let found := value (getPrecinctResults precincts electDist) in
  match found with
  | Some r =>
      exists before after,
        precincts = (before ++ r :: after)%list
        /\ item_id r = key
        /\ Forall (fun p => item_id p <> key) before
  | None =>
      Forall (fun p => item_id p <> key) precincts
      /\ logged (getPrecinctResults precincts electDist)
         = [NoResultsFound electDist]
  end
  /\ ((exists p, In p precincts /\ item_id p = key) ->
      exists r, found = Some r /\ item_id r = key).
Proof.
  intros key found.
  assert (Hneq : forall l : list PrecinctResult,
             Forall (fun y => (item_id y =? key)%string = false) l ->
             Forall (fun p => item_id p <> key) l).
  { intros l. apply Forall_impl. intros p. now rewrite String.eqb_neq. }
  pose proof (find_first_match
                (fun p => (item_id p =? key)%string) precincts) as H.
  subst found. rewrite getPrecinctResults_value. fold key.
  unfold getPrecinctResults. fold key.
  destruct (find _ precincts) as [r |] eqn:Hf.
  - destruct H as (before & after & Hl & Hr & Hb).
    apply String.eqb_eq in Hr. split; eauto 8.
  - split; [split; [auto | reflexivity] |].
    intros (p & Hin & Hp). exfalso.
    apply Hneq in H. rewrite Forall_forall in H. exact (H p Hin Hp).
Qed.

(** The styling functions read nothing of a feature but its identifier. *)
Lemma styleFunction_reads_ElectDist (viewMode : ViewMode) (f1 f2 : Feature) :
  ElectDist f1 = ElectDist f2 ->
  styleFunction precincts getVoterCounts viewMode f1
  = styleFunction precincts getVoterCounts viewMode f2.
Proof.
  intro H.
  destruct viewMode; unfold styleFunction, stylePrecinctByResults,
    stylePrecinctByTurnout, stylePrecinctByZohranSupport,
    stylePrecinctByVoters; now rewrite H.
Qed.

Lemma stylePrecinct_value (random : Q) (f : Feature) :
  value (stylePrecinct precincts random f)
  = mkStyle
      match getWinningCandidate
              (value (getPrecinctResults precincts (ElectDist f))) with
      | Some w => if JS.truthy w then baseColorOf w else noDataColor
      | None => noDataColor
      end.
Proof.
  unfold stylePrecinct. now rewrite !value_bind.
Qed.

(** C9.  For fixed datasets the styling functions are deterministic and
    depend on a feature only through its identifier: two features with the
    same identifier get equal style objects under the same view mode, so a
    result may be memoised by (identifier, view mode).  In the earlier
    variant the value drawn from [Math.random] decides only whether a line
    is logged, never the returned style. *)
Theorem style_determined_by_identifier_and_view
    (viewMode : ViewMode) (f1 f2 : Feature) :
  ElectDist f1 = ElectDist f2 ->
  value (styleFunction precincts getVoterCounts viewMode f1)
  = value (styleFunction precincts getVoterCounts viewMode f2)
  /\ forall random1 random2 : Q,
       value (stylePrecinct precincts random1 f1)
       = value (stylePrecinct precincts random2 f2).
Proof.
  intro H. split.
  - now rewrite (styleFunction_reads_ElectDist viewMode f1 f2 H).
  - intros. now rewrite !stylePrecinct_value, H.
Qed.

(** Every precinct style is [mkStyle] of some fill colour. *)
Lemma styleFunction_mkStyle (viewMode : ViewMode) (f : Feature) :
  exists fill,
    value (styleFunction precincts getVoterCounts viewMode f) = mkStyle fill.
Proof.
  destruct viewMode; cbn [styleFunction];
    unfold stylePrecinctByResults, stylePrecinctByTurnout,
      stylePrecinctByZohranSupport, stylePrecinctByVoters;
    rewrite ?value_bind;
    repeat match goal with
      | |- context [match ?x with _ => _ end] => destruct x
      end;
    eexists; reflexivity.
Qed.

(** C10.  Under every view mode the precinct style differs from one
    feature to the next only in [fillColor]: [weight] is 1, [opacity] is 1,
    [color] is white, [dashArray] is 3 and [fillOpacity] is 0.7. *)
Theorem style_frame (viewMode : ViewMode) (f : Feature) :
  let s := value (styleFunction precincts getVoterCounts viewMode f) in
  (weight s = 1 /\ opacity s = 1 /\ fillOpacity s = 7 # 10)%Q
  /\ color s = "white"
  /\ dashArray s = "3"
  /\ s = mkStyle (fillColor s).
Proof.
  destruct (styleFunction_mkStyle viewMode f) as [fill ->].
  repeat split.
Qed.

(** *** Fill colours are colours *)

Lemma baseColorOf_cases (w : string) :
  In (baseColorOf w) (noDataColor :: map snd candidateBaseColors).
Proof.
  unfold baseColorOf, candidateBaseColors. cbn [JS.prop].
  repeat match goal with
    | |- context [(?k =? w)%string] => destruct (k =? w)%string
    end; cbn; tauto.
Qed.

Lemma resultsFill_hex (base : string) (p : JS.num) :
  In base (noDataColor :: map snd candidateBaseColors) ->
  isHexColor (resultsFill base p) = true.
Proof.
  intro H. unfold resultsFill. cbn in H.
  repeat (destruct H as [<- | H]; [| try contradiction]);
    repeat destruct (JS.ge _ _); vm_compute; reflexivity.
Qed.

Lemma turnoutFill_hex (p : JS.num) : isHexColor (turnoutFill p) = true.
Proof. unfold turnoutFill. repeat destruct (JS.ge _ _); reflexivity. Qed.

Lemma votersFill_hex (p : JS.num) : isHexColor (votersFill p) = true.
Proof. unfold votersFill. repeat destruct (JS.lt _ _); reflexivity. Qed.

Lemma zohranFill_hex (p : JS.num) : isHexColor (zohranFill p) = true.
Proof.
  unfold zohranFill. repeat destruct (JS.ge _ _);
    try destruct (JS.gt _ _); reflexivity.
Qed.

Lemma genZFill_hex (p : JS.num) : isHexColor (genZFill p) = true.
Proof. unfold genZFill. repeat destruct (JS.ge _ _); reflexivity. Qed.

Lemma styleFunction_hex (viewMode : ViewMode) (f : Feature) :
  isHexColor
    (fillColor (value (styleFunction precincts getVoterCounts viewMode f)))
  = true.
Proof.
  destruct viewMode; cbn [styleFunction];
    unfold stylePrecinctByResults, stylePrecinctByTurnout,
      stylePrecinctByZohranSupport, stylePrecinctByVoters;
    rewrite ?value_bind;
    repeat match goal with
      | |- context [match ?x with _ => _ end] => destruct x
      end;
    rewrite ?value_ret; cbn [fillColor mkStyle];
    auto using resultsFill_hex, baseColorOf_cases, turnoutFill_hex,
      votersFill_hex, zohranFill_hex.
Qed.

Lemma styleCensusTract_hex (feature : TractFeature) (isPrimaryView : bool) :
  isHexColor (TractStyle.fillColor (styleCensusTract feature isPrimaryView))
  = true.
Proof.
  unfold styleCensusTract.
  repeat match goal with
    | |- context [match ?x with _ => _ end] => destruct x
    end;
    cbn [TractStyle.fillColor tractNoData]; auto using genZFill_hex.
Qed.

(** The styling functions over own entries.  Under every view mode and for
    every feature [styleFunction] gives one precinct style whose fill is a
    colour [#rrggbb]; when the view joins the election record and the
    feature has none, or joins the registration record and the feature has
    none, the fill is the no-data colour [#cccccc].  The census-tract
    styling likewise always returns a colour, the no-data colour when the
    tract has no population figure.  ([styleFunction_own_keys] below says
    for which features this is the style the map gets.) *)
Lemma styleFunction_classifies (viewMode : ViewMode) :
  (forall f : Feature,
     let s := value (styleFunction precincts getVoterCounts viewMode f) in
     s = mkStyle (fillColor s)
     /\ isHexColor (fillColor s) = true
     /\ (needsElection viewMode = true ->
         value (getPrecinctResults precincts (ElectDist f)) = None ->
         fillColor s = noDataColor)
     /\ (needsRegistration viewMode = true ->
         getVoterCounts (ElectDist f) = None ->
         fillColor s = noDataColor))
  /\ (forall t : TractFeature,
        let s := censusTractStyleWrapper viewMode t in
        isHexColor (TractStyle.fillColor s) = true
        /\ ((properties t = None
             \/ exists p, properties t = Some p
                          /\ (totalPopulation p = None
                              \/ totalPopulation p = Some 0
                              \/ ageGroups p = None)) ->
            TractStyle.fillColor s = noDataColor)).
Proof.
  split.
  - intros f s. subst s.
    split; [| split; [apply styleFunction_hex |]].
    { destruct (styleFunction_mkStyle viewMode f) as [fill ->]. reflexivity. }
    split; intros Hneed Hnone;
      destruct viewMode; try discriminate Hneed; cbn [styleFunction];
      unfold stylePrecinctByResults, stylePrecinctByTurnout,
        stylePrecinctByZohranSupport, stylePrecinctByVoters;
      rewrite ?value_bind, ?Hnone; try reflexivity;
      destruct (value (getPrecinctResults precincts (ElectDist f)));
      reflexivity.
  - intros t s. subst s. split; [apply styleCensusTract_hex |].
    unfold censusTractStyleWrapper, styleCensusTract.
    intros [-> | (p & -> & [-> | [-> | Hag]])]; try reflexivity.
    destruct (totalPopulation p) as [pop |]; [| reflexivity].
    destruct (pop =? 0); [reflexivity |].
    rewrite Hag. reflexivity.
Qed.

(** *** Results view *)

Lemma tier_exists (p : Q) : exists t, inTier p t.
Proof.
  destruct (Qlt_le_dec p 40); [now exists VeryWeak |].
  destruct (Qlt_le_dec p 50); [now exists Weak |].
  destruct (Qlt_le_dec p 60); [now exists Moderate |].
  destruct (Qlt_le_dec p 80); [now exists Strong | now exists VeryStrong].
Qed.

Lemma tier_unique (p : Q) (t t' : Tier) : inTier p t -> inTier p t' -> t' = t.
Proof.
  destruct t, t'; simpl; intros H H'; try reflexivity; exfalso; lra.
Qed.

Lemma resultsFill_shade (base : string) (p : Q) (t : Tier) :
  inTier p t -> resultsFill base (JS.Fin p) = shade base t.
Proof.
  unfold resultsFill, JS.ofZ, inject_Z. rewrite !ge_Fin.
  destruct t; simpl; intro H; split_thresholds; reflexivity.
Qed.

(** The win percentage of a winner is a finite number: the winner's votes
    over the total votes, times 100, or 0 when the total is not positive. *)
Lemma winPercentage_winner (r : PrecinctResult) (w : string) :
  getWinningCandidate (Some r) = Some w ->
  exists v,
    JS.prop (results r) w = Some v
    /\ winPercentage r w
       = if votes r >? 0
         then JS.Fin (inject_Z v / inject_Z (votes r) * inject_Z 100)
         else JS.Fin 0.
Proof.
  intro Hw. destruct (winner_in_results r w Hw) as (_ & _ & v0 & Hin).
  destruct (prop_In _ _ _ Hin) as [v Hv]. exists v. split; [assumption |].
  unfold winPercentage, votesOf. rewrite Hv.
  destruct (votes r >? 0) eqn:Hpos; [| reflexivity].
  apply percentOf_nonzero. lia.
Qed.

Lemma stylePrecinctByResults_winner (f : Feature) (r : PrecinctResult)
    (w : string) :
  value (getPrecinctResults precincts (ElectDist f)) = Some r ->
  getWinningCandidate (Some r) = Some w ->
  value (stylePrecinctByResults precincts f)
  = mkStyle (resultsFill (baseColorOf w) (winPercentage r w)).
Proof.
  intros Hr Hw. unfold stylePrecinctByResults.
  rewrite value_bind, Hr, Hw.
  destruct (winner_in_results r w Hw) as (Hne & _).
  apply truthy_iff in Hne. now rewrite Hne.
Qed.

(** *** Reads through the prototype *)

Lemma read_own_key (table : list (string * string)) (key d : string) :
  inheritedMember key = false ->
  WithPrototype.or_else (WithPrototype.read table key) d
  = WithPrototype.Str (JS.or_else (JS.prop table key) d).
Proof.
  intro H. unfold WithPrototype.read, WithPrototype.or_else, JS.or_else.
  destruct (JS.prop table key) as [s |].
  - now destruct (JS.truthy s).
  - now rewrite H.
Qed.

Lemma read_inherited (table : list (string * string)) (key d : string) :
  JS.prop table key = None ->
  inheritedMember key = true ->
  WithPrototype.or_else (WithPrototype.read table key) d
  = WithPrototype.Member key.
Proof.
  intros Hown H. unfold WithPrototype.read, WithPrototype.or_else.
  now rewrite Hown, H.
Qed.

Lemma resultsFill_own_key (w : string) (p : JS.num) :
  inheritedMember w = false ->
  WithPrototype.resultsFill (WithPrototype.baseColorOf w) p
  = WithPrototype.Returned
      (WithPrototype.Str (resultsFill (baseColorOf w) p)).
Proof.
  intro H. unfold WithPrototype.baseColorOf. rewrite (read_own_key _ _ _ H).
  fold (baseColorOf w). unfold WithPrototype.resultsFill, resultsFill.
  repeat destruct (JS.ge _ _); reflexivity.
Qed.

(** For a feature whose winner is not the name of an inherited member the
    results view over own entries is the results view: it returns, with the
    same fill and the same log. *)
Lemma results_view_own_keys (f : Feature) :
  ownWinner precincts f ->
  WithPrototype.stylePrecinctByResults precincts f
  = (WithPrototype.Returned
       (WithPrototype.ofStyle (value (stylePrecinctByResults precincts f))),
     logged (stylePrecinctByResults precincts f)).
Proof.
  unfold ownWinner, WithPrototype.stylePrecinctByResults,
    stylePrecinctByResults, bind, value, logged.
  destruct (getPrecinctResults precincts (ElectDist f)) as [[r |] log];
    cbn [fst snd]; intro H; [| reflexivity].
  destruct (getWinningCandidate (Some r)) as [w |] eqn:Hw; [| reflexivity].
  destruct (JS.truthy w); [| reflexivity].
  rewrite (resultsFill_own_key w _ (H r w eq_refl Hw)). reflexivity.
Qed.

Lemma styleFunction_own_keys (viewMode : ViewMode) (f : Feature) :
  ownWinner precincts f ->
  WithPrototype.styleFunction precincts getVoterCounts viewMode f
  = (WithPrototype.Returned
       (WithPrototype.ofStyle
          (value (styleFunction precincts getVoterCounts viewMode f))),
     logged (styleFunction precincts getVoterCounts viewMode f)).
Proof.
  intro H.
  destruct viewMode; cbn [WithPrototype.styleFunction styleFunction];
    try apply (results_view_own_keys f H);
    unfold bind, ret, value, logged;
    match goal with
    | |- context [let (_, _) := ?m in _] => destruct m as [s log]
    end;
    cbn [fst snd]; now rewrite app_nil_r.
Qed.

(** In the results view, for every precinct with a present election record
    and a winner that is not the name of an inherited member, the win
    percentage is a finite number p and the fill colour is the winner's base
    hue shaded by the one tier that holds p: below 40 lightened by 0.4,
    [40,50) lightened by 0.2, [50,60) the base hue, [60,80) darkened by
    0.2, 80 and above darkened by 0.3.  A win percentage of exactly 50
    gives the base hue. *)
Lemma results_view_tier (f : Feature) (r : PrecinctResult) (w : string) :
  value (getPrecinctResults precincts (ElectDist f)) = Some r ->
  getWinningCandidate (Some r) = Some w ->
  inheritedMember w = false ->
  let style := value (WithPrototype.stylePrecinctByResults precincts f) in
  exists winningVotes p,
    JS.prop (results r) w = Some winningVotes
    /\ winPercentage r w = JS.Fin p
    /\ p = (if votes r >? 0
            then inject_Z winningVotes / inject_Z (votes r) * inject_Z 100
            else 0)%Q
    /\ (exists t,
          inTier p t
          /\ (forall t', inTier p t' -> t' = t)
          /\ style
             = WithPrototype.Returned
                 (WithPrototype.mkStyle
                    (WithPrototype.Str (shade (baseColorOf w) t))))
    /\ ((p == 50)%Q ->
        style
        = WithPrototype.Returned
            (WithPrototype.mkStyle (WithPrototype.Str (baseColorOf w)))).
Proof.
  intros Hr Hw Hown style. subst style.
  assert (Hf : ownWinner precincts f).
  { intros r' w' Hr' Hw'. rewrite Hr in Hr'. injection Hr' as <-.
    rewrite Hw in Hw'. now injection Hw' as <-. }
  rewrite (results_view_own_keys f Hf). cbn [value fst].
  rewrite (stylePrecinctByResults_winner f r w Hr Hw).
  change (WithPrototype.ofStyle (mkStyle ?c))
    with (WithPrototype.mkStyle (WithPrototype.Str c)).
  destruct (winPercentage_winner r w Hw) as (v & Hv & Hp).
  exists v.
  exists (if votes r >? 0
          then inject_Z v / inject_Z (votes r) * inject_Z 100 else 0)%Q.
  set (p := (if votes r >? 0
             then inject_Z v / inject_Z (votes r) * inject_Z 100 else 0)%Q).
  assert (Hfin : winPercentage r w = JS.Fin p)
    by (rewrite Hp; subst p; destruct (votes r >? 0); reflexivity).
  rewrite Hfin.
  split; [assumption |]. split; [reflexivity |]. split; [reflexivity |]. split.
  - destruct (tier_exists p) as [t Ht]. exists t.
    split; [assumption |]. split.
    + intros t' Ht'. exact (tier_unique p t t' Ht Ht').
    + now rewrite (resultsFill_shade _ p t Ht).
  - intro H50. rewrite (resultsFill_shade _ p Moderate); [reflexivity |].
    simpl. lra.
Qed.

(** *** Zohran-support view *)

Lemma stylePrecinctByZohranSupport_joined (f : Feature) (r : PrecinctResult)
    (v : VoterCounts.t) :
  value (getPrecinctResults precincts (ElectDist f)) = Some r ->
  getVoterCounts (ElectDist f) = Some v ->
  VoterCounts.total v <> 0 ->
  value (stylePrecinctByZohranSupport precincts getVoterCounts f)
  = mkStyle (zohranFill (zohranSupportPercentage r v)).
Proof.
  intros Hr Hv Ht. unfold stylePrecinctByZohranSupport.
  rewrite value_bind, Hr, Hv.
  destruct (Z.eqb_spec (VoterCounts.total v) 0); [contradiction | reflexivity].
Qed.

(** C7.  When the election record of a precinct is present and has no
    [mamdani-z] entry, the targeted-candidate vote count is 0.  When the
    registration total is positive and the targeted votes are 0, the derived
    support is 0% and the fill is the no-support colour [#c51b7d]; that
    colour differs from the no-data colour [#cccccc], which is the fill when
    the registration record is absent. *)
Theorem zohran_no_support_bucket (f : Feature) (r : PrecinctResult) :
  value (getPrecinctResults precincts (ElectDist f)) = Some r ->
  let fill :=
    fillColor (value (stylePrecinctByZohranSupport precincts getVoterCounts f))
  in
  (JS.prop (results r) "mamdani-z" = None -> zohranVotes r = 0)
  /\ (forall v,
        getVoterCounts (ElectDist f) = Some v ->
        VoterCounts.total v > 0 ->
        zohranVotes r = 0 ->
        JS.num_eq (zohranSupportPercentage r v) (JS.ofZ 0)
        /\ fill = "#c51b7d")
  /\ "#c51b7d" <> noDataColor
  /\ (getVoterCounts (ElectDist f) = None -> fill = noDataColor).
Proof.
  intros Hr fill. subst fill. split; [| split; [| split]].
  - unfold zohranVotes. now intros ->.
  - intros v Hv Hpos Hz.
    rewrite (stylePrecinctByZohranSupport_joined f r v Hr Hv) by lia.
    assert (Hp : zohranSupportPercentage r v
                 = JS.Fin (0 / inject_Z (VoterCounts.total v) * inject_Z 100)).
    { unfold zohranSupportPercentage. rewrite Hz.
      apply (percentOf_nonzero 0). lia. }
    rewrite Hp.
    set (q := (0 / inject_Z (VoterCounts.total v) * inject_Z 100)%Q).
    assert (E : (q == 0)%Q) by (subst q; unfold Qdiv; ring).
    split; [exact E |].
    cbn [fillColor mkStyle]. unfold zohranFill, JS.ofZ, inject_Z.
    rewrite !ge_Fin, gt_Fin.
    split_thresholds; reflexivity.
  - discriminate.
  - intro Hv. unfold stylePrecinctByZohranSupport.
    now rewrite value_bind, Hr, Hv.
Qed.

(** *** Zero denominators *)

(** C1 (amended).  For every registration record with total = 0, the
    targeted-candidate support is undefined: the Zohran-support view gives
    the no-data colour and the popup leaves the support line and the
    overall-turnout line of the election section out.  The Democratic
    registration share against that total is instead the number 0: the
    registration view classifies it into the lowest bin ([#d62728]) and the
    popup prints the text 0.  Likewise a Democratic turnout against 0
    registered Democrats is undefined (no-data colour, lines left out), a
    win percentage against 0 total votes is the number 0, and a Gen-Z share
    against a population of 0 is null. *)
Theorem zero_denominator_policy (f : Feature) (v : VoterCounts.t) :
  getVoterCounts (ElectDist f) = Some v ->
  (VoterCounts.total v = 0 ->
   fillColor (value (stylePrecinctByZohranSupport precincts getVoterCounts f))
   = noDataColor
   /\ fillColor (value (stylePrecinctByVoters getVoterCounts f))
      = votersFill (JS.ofZ 0)
   /\ votersFill (JS.ofZ 0) = "#d62728"
   /\ forall viewMode,
        let m := value (onEachPrecinct precincts getVoterCounts f viewMode) in
        el_overallTurnout m = Omitted
        /\ el_zohranSupport m = Omitted
        /\ reg_demPercentage m = Lit "0"
        /\ reg_repPercentage m = Lit "0")
  /\ (VoterCounts.democrats v = 0 ->
      fillColor (value (stylePrecinctByTurnout precincts getVoterCounts f))
      = noDataColor
      /\ forall viewMode,
           let m := value (onEachPrecinct precincts getVoterCounts f viewMode) in
           el_demTurnout m = Omitted /\ reg_demTurnout m = Omitted)
  /\ (forall r,
        value (getPrecinctResults precincts (ElectDist f)) = Some r ->
        votes r = 0 ->
        (forall w, winPercentage r w = JS.ofZ 0)
        /\ forall viewMode,
             Forall (fun line => snd line = Lit "0.0")
               (el_results
                  (value (onEachPrecinct precincts getVoterCounts f viewMode))))
  /\ (forall groups, calculateGenZPercentage groups (Some 0) = None).
Proof.
  intro Hv. split; [| split; [| split]].
  - intro Ht. split; [| split; [| split]].
    + unfold stylePrecinctByZohranSupport. rewrite value_bind, Hv, Ht.
      now destruct (value (getPrecinctResults precincts (ElectDist f))).
    + unfold stylePrecinctByVoters. now rewrite Hv, Ht.
    + reflexivity.
    + intros viewMode m. subst m. unfold onEachPrecinct.
      rewrite value_bind, Hv, Ht.
      destruct (value (getPrecinctResults precincts (ElectDist f)));
        destruct viewMode; repeat split.
  - intro Hd. split.
    + unfold stylePrecinctByTurnout. rewrite value_bind, Hv, Hd.
      now destruct (value (getPrecinctResults precincts (ElectDist f))).
    + intros viewMode m. subst m. unfold onEachPrecinct.
      rewrite value_bind, Hv, Hd.
      destruct (value (getPrecinctResults precincts (ElectDist f))) as [r |];
        cbn; [| split; reflexivity].
      rewrite andb_false_r. split; reflexivity.
  - intros r Hr Hz. split.
    + intro w. unfold winPercentage. now rewrite Hz.
    + intro viewMode. unfold onEachPrecinct. rewrite value_bind, Hr.
      cbn [value ret fst el_results]. rewrite Hz.
      apply Forall_forall. intros line Hin.
      apply in_map_iff in Hin. destruct Hin as ([k n] & <- & _). reflexivity.
  - intros [groups |]; reflexivity.
Qed.

(** The percentages of the election section of the popup, and the party
    shares of its registration section, are finite numbers whenever they
    are printed. *)
Lemma popup_guarded_metrics_finite (f : Feature) (viewMode : ViewMode) :
  let m := value (onEachPrecinct precincts getVoterCounts f viewMode) in
  Forall (fun shown => forall p, shown = Pct p -> JS.isFinite p = true)
    [el_overallTurnout m; el_demTurnout m; el_zohranSupport m;
     reg_demPercentage m; reg_repPercentage m; reg_demTurnout m].
Proof.
  assert (Hfin : forall x d p,
             (d >? 0) = true ->
             Pct (percentOf (JS.ofZ x) (JS.ofZ d)) = Pct p ->
             JS.isFinite p = true).
  { intros x d p Hd. unfold JS.ofZ at 1.
    rewrite percentOf_nonzero by lia. now intros [= <-]. }
  intro m. subst m. unfold onEachPrecinct. rewrite value_bind.
  cbn [value ret fst el_overallTurnout el_demTurnout el_zohranSupport
       reg_demPercentage reg_repPercentage reg_demTurnout].
  unfold zohranSupportPercentage.
  destruct (value (getPrecinctResults precincts (ElectDist f))) as [r |];
    destruct (getVoterCounts (ElectDist f)) as [v |];
    repeat constructor; intros p;
    try discriminate;
    try (destruct viewMode; try discriminate);
    repeat match goal with
      | |- context [if ?c then _ else _] =>
          let E := fresh "E" in destruct c eqn:E
      end;
    try discriminate;
    try (apply andb_prop in E; destruct E);
    eauto.
Qed.

End Properties.

(** The fills of the turnout and registration views, once the records are
    joined. *)
Lemma stylePrecinctByTurnout_joined
    (precincts : list PrecinctResult)
    (getVoterCounts : Z -> option VoterCounts.t)
    (f : Feature) (r : PrecinctResult) (v : VoterCounts.t) :
  value (getPrecinctResults precincts (ElectDist f)) = Some r ->
  getVoterCounts (ElectDist f) = Some v ->
  VoterCounts.democrats v <> 0 ->
  exists p,
    percentOf (JS.ofZ (votes r)) (JS.ofZ (VoterCounts.democrats v)) = JS.Fin p
    /\ fillColor (value (stylePrecinctByTurnout precincts getVoterCounts f))
       = turnoutFill (JS.Fin p).
Proof.
  intros Hr Hv Hd. unfold stylePrecinctByTurnout.
  rewrite value_bind, Hr, Hv.
  destruct (Z.eqb_spec (VoterCounts.democrats v) 0); [contradiction |].
  unfold JS.ofZ at 1 3. rewrite percentOf_nonzero by assumption. eauto.
Qed.

Lemma stylePrecinctByVoters_joined
    (getVoterCounts : Z -> option VoterCounts.t)
    (f : Feature) (v : VoterCounts.t) :
  getVoterCounts (ElectDist f) = Some v ->
  exists p,
    fillColor (value (stylePrecinctByVoters getVoterCounts f))
    = votersFill (JS.Fin p).
Proof.
  intros Hv. unfold stylePrecinctByVoters. rewrite Hv.
  destruct (VoterCounts.total v >? 0) eqn:Ht.
  - unfold JS.ofZ at 1. rewrite percentOf_nonzero by lia.
    eexists. reflexivity.
  - eexists. reflexivity.
Qed.

(** C6 (amended).  The turnout and voter-registration tables have 6 bins
    and the Zohran-support table has 8.  Every bin of the first two, and
    the six upper bins of the third, are closed at the lower boundary and
    open at the upper one; the boundary 0 of the Zohran-support table
    belongs to the bottom bin, which is closed above, the bin after it being
    open below.  The top bin of each table is unbounded above, and every
    finite percentage falls in exactly one bin, whose colour is the fill: a
    Democratic turnout of 60 is in the top bin, a registration share of 30
    in [30,40), a Zohran support of 2.5 in [2.5,5). *)
Theorem threshold_tables :
  (List.length turnoutBins = 6 /\ List.length votersBins = 6
   /\ List.length zohranBins = 8)%nat
  /\ forallb isHalfOpen turnoutBins = true
  /\ forallb isHalfOpen votersBins = true
  /\ map isHalfOpen zohranBins
     = [false; false; true; true; true; true; true; true]
  /\ (last (map upper turnoutBins) (Some 0%Q) = None
      /\ last (map upper votersBins) (Some 0%Q) = None
      /\ last (map upper zohranBins) (Some 0%Q) = None)
  /\ (forall p : Q,
        (bucketOf turnoutBins p = Some (turnoutFill (JS.Fin p))
         /\ binsHolding turnoutBins p = 1%nat)
        /\ (bucketOf votersBins p = Some (votersFill (JS.Fin p))
            /\ binsHolding votersBins p = 1%nat)
        /\ (bucketOf zohranBins p = Some (zohranFill (JS.Fin p))
            /\ binsHolding zohranBins p = 1%nat))
  /\ (turnoutFill (JS.ofZ 60) = "#1a365d"
      /\ votersFill (JS.ofZ 30) = "#ff7f0e"
      /\ zohranFill (JS.Fin (5 # 2)) = "#f1b6da").
Proof.
  repeat match goal with |- _ /\ _ => split end; try reflexivity.
  intro p. split; [apply turnoutFill_bins |].
  split; [apply votersFill_bins | apply zohranFill_bins].
Qed.

(** C6 as stated fails at the boundary 0 of the Zohran-support table: with
    every bin closed below and open above, a support of exactly 0 would be
    in the bin [0,2.5); the code puts it in the bottom bin. *)
Lemma zohran_zero_not_half_open :
  bucketOf zohranBinsHalfOpen 0 <> Some (zohranFill (JS.ofZ 0)).
Proof. vm_compute. discriminate. Qed.

(* ================================================================== *)
(** ** Gen-Z share *)

Lemma genZCount_from (groups : list (string * option AgeGroup.t)) (a : Q) :
  (fold_left (fun acc entry => acc + genZContribution entry) groups a
   == a + genZCount groups)%Q.
Proof.
  unfold genZCount. revert a.
  induction groups as [| e groups IH]; intro a; simpl.
  - ring.
  - rewrite (IH (a + genZContribution e)%Q), (IH (0 + genZContribution e)%Q).
    ring.
Qed.

Lemma genZCount_cons (e : string * option AgeGroup.t)
    (groups : list (string * option AgeGroup.t)) :
  (genZCount (e :: groups) == genZContribution e + genZCount groups)%Q.
Proof.
  unfold genZCount at 1. simpl. rewrite genZCount_from. ring.
Qed.

Lemma prop_absent {A : Type} (o : list (string * A)) (k : string) :
  ~ In k (map fst o) -> JS.prop o k = None.
Proof.
  induction o as [| [k' v] o IH]; simpl; [reflexivity |].
  intro H. destruct (String.eqb_spec k' k); [tauto | apply IH; tauto].
Qed.

Lemma countOf_absent (groups : list (string * option AgeGroup.t)) (k : string) :
  ~ In k (map fst groups) -> countOf groups k = 0.
Proof. intro H. unfold countOf. now rewrite prop_absent. Qed.

Lemma genZWeightedCount_cons (k : string) (d : option AgeGroup.t)
    (groups : list (string * option AgeGroup.t)) :
  ~ In k (map fst groups) ->
  (genZWeightedCount ((k, d) :: groups)
   == genZContribution (k, d) + genZWeightedCount groups)%Q.
Proof.
  intro Hk. pose proof (countOf_absent groups k Hk) as H0.
  assert (Hpos : forall c, (c >? 0) = true -> Z.max c 0 = c) by (intros; lia).
  assert (Hneg : forall c, (c >? 0) = false -> Z.max c 0 = 0) by (intros; lia).
  unfold genZWeightedCount, genZContribution.
  unfold countOf at 1 2 3 4. cbn [JS.prop].
  destruct (String.eqb_spec k "10 to 14 years") as [-> | _];
    [| destruct (String.eqb_spec k "15 to 19 years") as [-> | _];
       [| destruct (String.eqb_spec k "20 to 24 years") as [-> | _];
          [| destruct (String.eqb_spec k "25 to 29 years") as [-> | _]]]];
    cbn [String.eqb Ascii.eqb Bool.eqb];
    fold (countOf groups "10 to 14 years");
    fold (countOf groups "15 to 19 years");
    fold (countOf groups "20 to 24 years");
    fold (countOf groups "25 to 29 years");
    rewrite ?H0;
    destruct d as [[[c |]] |];
    try (destruct (c >? 0) eqn:Hc;
         [rewrite ?(Hpos c Hc) | rewrite ?(Hneg c Hc)]);
    change (inject_Z 0) with 0%Q; ring.
Qed.

(** Over a mapping with distinct keys the loop computes the weighted count
    of the specification. *)
Lemma genZCount_weighted (groups : list (string * option AgeGroup.t)) :
  NoDup (map fst groups) ->
  (genZCount groups == genZWeightedCount groups)%Q.
Proof.
  induction groups as [| [k d] groups IH]; intro Hnd.
  - reflexivity.
  - simpl in Hnd. apply NoDup_cons_iff in Hnd. destruct Hnd as [Hk Hnd].
    rewrite genZCount_cons, genZWeightedCount_cons by assumption.
    now rewrite IH.
Qed.

Lemma genZContribution_nonneg (entry : string * option AgeGroup.t) :
  (0 <= genZContribution entry)%Q.
Proof.
  destruct entry as [k [[[c |]] |]]; cbn; try lra.
  destruct (c >? 0) eqn:Hc; [| lra].
  assert (Hq : (0 <= inject_Z c)%Q)
    by (change 0%Q with (inject_Z 0); rewrite <- Zle_Qle; lia).
  repeat match goal with
    | |- context [if ?b then _ else _] => destruct b
    end; lra.
Qed.

Lemma genZCount_nonneg (groups : list (string * option AgeGroup.t)) :
  (0 <= genZCount groups)%Q.
Proof.
  induction groups as [| e groups IH]; [cbn; lra |].
  rewrite genZCount_cons. pose proof (genZContribution_nonneg e). lra.
Qed.








(** The sample tract: four brackets in the order of age, a share of 22. *)
Example genZ_share_sample :
  genZEntries ageGroups_sample
  = [ ("10 to 14 years", 10); ("15 to 19 years", 5);
      ("20 to 24 years", 5); ("25 to 29 years", 10) ]
  /\ Binary64.calculateGenZPercentage (Some ageGroups_sample) (Some 100)
     = Some 22%float.
Proof. split; vm_compute; reflexivity. Qed.

(* ================================================================== *)
(** ** The claims at concrete precincts *)

(** C1 as stated fails: with a registration total of 0 the registration
    view does not give the no-data colour. *)
Lemma zero_total_share_classified :
  ~ (forall (getVoterCounts : Z -> option VoterCounts.t) (f : Feature)
            (v : VoterCounts.t),
       getVoterCounts (ElectDist f) = Some v ->
       VoterCounts.total v = 0 ->
       fillColor (value (stylePrecinctByVoters getVoterCounts f))
       = noDataColor).
Proof.
  intro H.
  specialize (H (registration_of 23001 (voters_of 0 0 0)) (feature_of 23001)
                (voters_of 0 0 0) eq_refl eq_refl).
  discriminate H.
Qed.

Lemma zero_denominator_policy_witness :
  registration_of 23001 (voters_of 0 0 0) (ElectDist feature_a)
  = Some (voters_of 0 0 0)
  /\ fillColor
       (value (stylePrecinctByZohranSupport [precinct_half]
                 (registration_of 23001 (voters_of 0 0 0)) feature_a))
     = noDataColor
  /\ fillColor
       (value (stylePrecinctByVoters
                 (registration_of 23001 (voters_of 0 0 0)) feature_a))
     = "#d62728".
Proof.
  split; [reflexivity |].
  destruct (zero_denominator_policy [precinct_half]
              (registration_of 23001 (voters_of 0 0 0)) feature_a
              (voters_of 0 0 0) eq_refl) as (H & _).
  destruct (H eq_refl) as (Hz & Hv & Hc & _).
  split; [exact Hz |]. now rewrite Hv.
Defined.

(** The registration section of the popup divides the votes by the
    registration total without a guard: with votes and a total of 0 the
    overall turnout it prints is not finite. *)
Example popup_turnout_not_finite :
  reg_overallTurnout
    (value (onEachPrecinct [precinct_half]
              (registration_of 23001 (voters_of 0 0 0)) feature_a
              voter_registration))
  = Pct JS.PInf.
Proof. reflexivity. Qed.

(** C5.  The precinct whose election record has the empty string as only
    candidate key.  The record is present and its candidate mapping is not
    empty; the leading key has all the votes, a win percentage of 100, in
    the tier of 80 and above; the hue of a key outside the colour table is
    [#cccccc], which that tier darkens to [#8e8e8e].  The results view
    returns the no-data colour instead, unshaded: [getWinningCandidate] has
    returned null for the empty key. *)
Theorem results_view_of_empty_key :
  value (getPrecinctResults [precinct_empty_key] (ElectDist feature_a))
  = Some precinct_empty_key
  /\ rankedCandidates precinct_empty_key = [("", 5)]
  /\ JS.num_eq (winPercentage precinct_empty_key "") (JS.ofZ 100)
  /\ inTier 100 VeryStrong
  /\ WithPrototype.baseColorOf "" = WithPrototype.Str "#cccccc"
  /\ shade "#cccccc" VeryStrong = "#8e8e8e"
  /\ value (WithPrototype.stylePrecinctByResults [precinct_empty_key]
              feature_a)
     = WithPrototype.Returned
         (WithPrototype.mkStyle (WithPrototype.Str "#cccccc")).
Proof.
  repeat split; try reflexivity; vm_compute; congruence.
Qed.

(** C3.  The precinct whose leading candidate key is [constructor].  The
    read [candidateBaseColors["constructor"]] finds the member of that name
    which the table inherits from [Object.prototype], an object and not a
    string.  With all the votes the winner is in the tier of 80 and above,
    [darkenColor] calls [replace] on that object and the styling function
    throws a TypeError; with 55 votes of 100 it returns a style whose
    [fillColor] is that object, not a colour. *)
Theorem classification_throws_on_inherited_key :
  getWinningCandidate (Some precinct_constructor) = Some "constructor"
  /\ WithPrototype.baseColorOf "constructor"
     = WithPrototype.Member "constructor"
  /\ value (WithPrototype.styleFunction [precinct_constructor]
              no_registration election_results feature_a)
     = WithPrototype.TypeError
  /\ value (WithPrototype.styleFunction [precinct_constructor_moderate]
              no_registration election_results feature_a)
     = WithPrototype.Returned
         (WithPrototype.mkStyle (WithPrototype.Member "constructor")).
Proof. repeat split. Qed.

(** Half of the votes for a listed candidate: the base hue. *)
Example results_view_exactly_50 :
  value (WithPrototype.stylePrecinctByResults [precinct_half] feature_a)
  = WithPrototype.Returned
      (WithPrototype.mkStyle (WithPrototype.Str "#1f77b4")).
Proof.
  destruct (results_view_tier [precinct_half] feature_a precinct_half
              "cuomo-a" eq_refl eq_refl eq_refl)
    as (n & p & _ & Hp & _ & _ & H50).
  rewrite H50; [reflexivity |].
  vm_compute in Hp. injection Hp as <-. reflexivity.
Qed.

Lemma zohran_no_support_bucket_witness :
  value (getPrecinctResults [precinct_without_mamdani] (ElectDist feature_a))
  = Some precinct_without_mamdani
  /\ zohranVotes precinct_without_mamdani = 0
  /\ fillColor
       (value (stylePrecinctByZohranSupport [precinct_without_mamdani]
                 (registration_of 23001 (voters_of 600 200 1000)) feature_a))
     = "#c51b7d"
  /\ fillColor
       (value (stylePrecinctByZohranSupport [precinct_without_mamdani]
                 no_registration feature_a))
     = noDataColor.
Proof.
  split; [reflexivity |].
  destruct (zohran_no_support_bucket [precinct_without_mamdani]
              (registration_of 23001 (voters_of 600 200 1000)) feature_a
              precinct_without_mamdani eq_refl) as (Hz & Hs & _ & _).
  destruct (zohran_no_support_bucket [precinct_without_mamdani]
              no_registration feature_a
              precinct_without_mamdani eq_refl) as (_ & _ & _ & Hn).
  split; [exact (Hz eq_refl) |].
  split; [| exact (Hn eq_refl)].
  exact (proj2 (Hs (voters_of 600 200 1000) eq_refl eq_refl (Hz eq_refl))).
Defined.

Lemma style_determined_witness :
  ElectDist feature_a = ElectDist feature_b
  /\ feature_a <> feature_b
  /\ value (styleFunction [precinct_half]
              (registration_of 23001 (voters_of 600 200 1000))
              election_results feature_a)
     = value (styleFunction [precinct_half]
                (registration_of 23001 (voters_of 600 200 1000))
                election_results feature_b)
  /\ value (stylePrecinct [precinct_half] (1 # 1000) feature_a)
     = value (stylePrecinct [precinct_half] (1 # 2) feature_b).
Proof.
  split; [reflexivity |]. split; [discriminate |].
  destruct (style_determined_by_identifier_and_view [precinct_half]
              (registration_of 23001 (voters_of 600 200 1000))
              election_results feature_a feature_b eq_refl) as (H1 & H2).
  split; [exact H1 | exact (H2 (1 # 1000) (1 # 2))].
Defined.

(** In the earlier variant the drawn number decides whether a line is
    logged. *)
Example stylePrecinct_logs_differ :
  logged (stylePrecinct [precinct_half] (1 # 1000) feature_a)
  = [StylingPrecinct 23001 true (Some "cuomo-a") None]
  /\ logged (stylePrecinct [precinct_half] (1 # 2) feature_a) = [].
Proof. split; reflexivity. Qed.

(** The boundary examples of the three threshold tables, from the joined
    records to the fill. *)
Example turnout_exactly_60 :
  fillColor
    (value (stylePrecinctByTurnout [precinct_of "23001" 600 [("cuomo-a", 600)]]
              (registration_of 23001 (voters_of 1000 200 1500)) feature_a))
  = "#1a365d".
Proof. reflexivity. Qed.

Example registration_share_exactly_30 :
  fillColor
    (value (stylePrecinctByVoters
              (registration_of 23001 (voters_of 300 500 1000)) feature_a))
  = "#ff7f0e".
Proof. reflexivity. Qed.

Example zohran_support_exactly_2_5 :
  fillColor
    (value (stylePrecinctByZohranSupport
              [precinct_of "23001" 100 [("mamdani-z", 25); ("cuomo-a", 75)]]
              (registration_of 23001 (voters_of 600 200 1000)) feature_a))
  = "#f1b6da".
Proof. reflexivity. Qed.

(** Shades of the first base hue.  The blue channel of the darkest shade
    shows the binary64 product: 180 * (1 - 0.3) is just below 126. *)
Example shades_of_cuomo_blue :
  map (shade "#1f77b4") [VeryWeak; Weak; Moderate; Strong; VeryStrong]
  = ["#78add2"; "#4b92c3"; "#1f77b4"; "#185f90"; "#15537d"].
Proof. vm_compute. reflexivity. Qed.

(* ================================================================== *)
(** ** County aggregation *)

Lemma plusTotals_zero_l (t : VoterTotals.t) : plusTotals zeroTotals t = t.
Proof. destruct t. reflexivity. Qed.

Lemma plusTotals_assoc_add (a b : VoterTotals.t) (p : PrecinctWithVoterData) :
  addPrecinctTotals (plusTotals a b) p = plusTotals a (addPrecinctTotals b p).
Proof.
  unfold addPrecinctTotals, plusTotals.
  destruct (voterCounts p); [| reflexivity].
  cbn. f_equal; lia.
Qed.

Lemma plusTotals_zero_r (t : VoterTotals.t) : plusTotals t zeroTotals = t.
Proof. destruct t. unfold plusTotals. cbn. f_equal; lia. Qed.

Lemma plusTotals_assoc (a b c : VoterTotals.t) :
  plusTotals (plusTotals a b) c = plusTotals a (plusTotals b c).
Proof. unfold plusTotals. cbn. f_equal; lia. Qed.

Lemma fold_totals_from (l : list PrecinctWithVoterData) (a : VoterTotals.t) :
  fold_left addPrecinctTotals l a
  = plusTotals a (fold_left addPrecinctTotals l zeroTotals).
Proof.
  revert a. induction l as [| p l IH]; intro a; simpl.
  - now rewrite plusTotals_zero_r.
  - rewrite (IH (addPrecinctTotals a p)), (IH (addPrecinctTotals zeroTotals p)).
    rewrite <- plusTotals_assoc, <- plusTotals_assoc_add.
    now rewrite plusTotals_zero_r.
Qed.

Lemma byCounty_app (l1 l2 : list Feature)
    (getVoterCounts : Z -> option VoterCounts.t) (county : string) :
  getPrecinctsByCountyWithVoterData (l1 ++ l2) getVoterCounts county
  = (getPrecinctsByCountyWithVoterData l1 getVoterCounts county
     ++ getPrecinctsByCountyWithVoterData l2 getVoterCounts county)%list.
Proof.
  unfold getPrecinctsByCountyWithVoterData, addVoterDataToPrecincts.
  now rewrite map_app, filter_app.
Qed.

Lemma byCounty_selected (features : list Feature)
    (getVoterCounts : Z -> option VoterCounts.t) (county : string) :
  let selected :=
    getPrecinctsByCountyWithVoterData features getVoterCounts county in
  map base selected = filter (inCounty getVoterCounts county) features
  /\ Forall (fun p =>
               exists v,
                 voterCounts p = Some v
                 /\ getVoterCounts (ElectDist (base p)) = Some v
                 /\ VoterCounts.county v = county)
            selected.
Proof.
  unfold getPrecinctsByCountyWithVoterData, addVoterDataToPrecincts, inCounty.
  induction features as [| f features [IH1 IH2]]; cbn.
  - split; constructor.
  - destruct (getVoterCounts (ElectDist f)) as [v |] eqn:Hv; cbn.
    + destruct (String.eqb_spec (VoterCounts.county v) county); cbn.
      * split; [now rewrite IH1 |].
        constructor; [| assumption]. exists v. cbn. auto.
      * split; assumption.
    + split; assumption.
Qed.

(** X1.  [getPrecinctsByCountyWithVoterData] keeps, in stored order,
    exactly the features whose registration record exists and is of the
    county, each with that record attached; a feature without a
    registration record is in no county, and the features are not
    otherwise changed. *)
Theorem byCounty_members (features : list Feature)
    (getVoterCounts : Z -> option VoterCounts.t) (county : string) :
  let selected :=
    getPrecinctsByCountyWithVoterData features getVoterCounts county in
  map base selected = filter (inCounty getVoterCounts county) features
  /\ (forall p,
        In p selected
        <-> exists f v,
              In f features
              /\ getVoterCounts (ElectDist f) = Some v
              /\ VoterCounts.county v = county
              /\ p = {| base := f; voterCounts := Some v |})
  /\ (forall f,
        In f features ->
        getVoterCounts (ElectDist f) = None ->
        forall county', ~ In f (map base
          (getPrecinctsByCountyWithVoterData features getVoterCounts county'))).
Proof.
  intro selected. subst selected.
  split; [apply byCounty_selected |]. split.
  - intro p.
    unfold getPrecinctsByCountyWithVoterData, addVoterDataToPrecincts.
    rewrite filter_In, in_map_iff. split.
    + intros [(f & <- & Hf) Hc]. cbn in Hc.
      destruct (getVoterCounts (ElectDist f)) as [v |] eqn:Hv;
        [| discriminate].
      apply String.eqb_eq in Hc. exists f, v. rewrite Hv. auto.
    + intros (f & v & Hf & Hv & Hc & ->). split.
      * exists f. now rewrite Hv.
      * cbn. now apply String.eqb_eq.
  - intros f Hf Hnone county' Hin.
    destruct (byCounty_selected features getVoterCounts county') as [Hmap _].
    rewrite Hmap in Hin. apply filter_In in Hin. destruct Hin as [_ Hc].
    unfold inCounty in Hc. now rewrite Hnone in Hc.
Qed.

(** X2.  The county totals are additive over the list of features: the
    totals of two lists put end to end are the field-by-field sums of their
    totals.  A district listed twice is therefore counted twice, and a
    county none of whose features has a record of it has all totals 0. *)
Theorem countyTotals_additive (l1 l2 : list Feature)
    (getVoterCounts : Z -> option VoterCounts.t) (county : string) :
  getCountyVoterTotals (l1 ++ l2) getVoterCounts county
  = plusTotals (getCountyVoterTotals l1 getVoterCounts county)
               (getCountyVoterTotals l2 getVoterCounts county)
  /\ getCountyVoterTotals (l1 ++ l1) getVoterCounts county
     = plusTotals (getCountyVoterTotals l1 getVoterCounts county)
                  (getCountyVoterTotals l1 getVoterCounts county)
  /\ (filter (inCounty getVoterCounts county) l1 = [] ->
      getCountyVoterTotals l1 getVoterCounts county = zeroTotals).
Proof.
  assert (Happ : forall a b,
    getCountyVoterTotals (a ++ b) getVoterCounts county
    = plusTotals (getCountyVoterTotals a getVoterCounts county)
                 (getCountyVoterTotals b getVoterCounts county)).
  { intros a b. unfold getCountyVoterTotals.
    now rewrite byCounty_app, fold_left_app, fold_totals_from. }
  split; [apply Happ |]. split; [apply Happ |].
  intro Hnone. unfold getCountyVoterTotals.
  destruct (byCounty_selected l1 getVoterCounts county) as [Hmap _].
  rewrite Hnone in Hmap.
  destruct (getPrecinctsByCountyWithVoterData l1 getVoterCounts county);
    [reflexivity | discriminate].
Qed.

(** X3.  The county totals keep the invariant of the registration records:
    when in every record the six party counts sum to at most the total (and
    no count is negative), the same holds of the totals of every county. *)
Theorem countyTotals_invariant (features : list Feature)
    (getVoterCounts : Z -> option VoterCounts.t) (county : string) :
  (forall d v, getVoterCounts d = Some v ->
               partiesWithinTotal v
               /\ 0 <= VoterCounts.democrats v
               /\ 0 <= VoterCounts.total v) ->
  let t := getCountyVoterTotals features getVoterCounts county in
  VoterTotals.democrats t + VoterTotals.republicans t
  + VoterTotals.conservatives t + VoterTotals.working_families t
  + VoterTotals.other t + VoterTotals.blank t
  <= VoterTotals.total t
  /\ 0 <= VoterTotals.democrats t
  /\ 0 <= VoterTotals.total t.
Proof.
  intros Hinv t. subst t. unfold getCountyVoterTotals.
  destruct (byCounty_selected features getVoterCounts county) as [_ Hall].
  induction Hall as [| p l (v & Hp & Hv & _) Hall IH]; cbn.
  - lia.
  - rewrite fold_totals_from.
    destruct (Hinv _ _ Hv) as (H1 & H2 & H3). unfold partiesWithinTotal in H1.
    set (rest := fold_left addPrecinctTotals l zeroTotals) in *.
    unfold addPrecinctTotals. rewrite Hp.
    unfold plusTotals. cbn. lia.
Qed.

Lemma countyTotals_invariant_witness :
  (forall d v,
     registration_of 23001 (voters_of 600 200 1000) d = Some v ->
     partiesWithinTotal v
     /\ 0 <= VoterCounts.democrats v
     /\ 0 <= VoterCounts.total v)
  /\ VoterTotals.democrats
       (getCountyVoterTotals [feature_a; feature_b]
          (registration_of 23001 (voters_of 600 200 1000)) "Kings")
     <= VoterTotals.total
          (getCountyVoterTotals [feature_a; feature_b]
             (registration_of 23001 (voters_of 600 200 1000)) "Kings").
Proof.
  assert (H : forall d v,
             registration_of 23001 (voters_of 600 200 1000) d = Some v ->
             partiesWithinTotal v
             /\ 0 <= VoterCounts.democrats v
             /\ 0 <= VoterCounts.total v).
  { intros d v. unfold registration_of.
    destruct (d =? 23001); [| discriminate].
    intros [= <-]. unfold partiesWithinTotal. cbn. lia. }
  split; [exact H |].
  pose proof (countyTotals_invariant [feature_a; feature_b]
                (registration_of 23001 (voters_of 600 200 1000)) "Kings" H)
    as (Hsum & Hdem & Htot).
  cbn in *. lia.
Defined.

(* ================================================================== *)
(** ** Matching statistics *)

Lemma hasResults_find (precincts : list PrecinctResult) (f : Feature) :
  hasResults precincts f
  = match value (getPrecinctResults precincts (ElectDist f)) with
    | Some _ => true
    | None => false
    end.
Proof.
  rewrite getPrecinctResults_value. unfold hasResults.
  induction precincts as [| r precincts IH]; cbn; [reflexivity |].
  destruct (item_id r =? JS.toString (ElectDist f))%string; cbn; auto.
Qed.

Lemma logged_nil_iff (precincts : list PrecinctResult) (f : Feature) :
  logged (getPrecinctResults precincts (ElectDist f)) = []
  <-> hasResults precincts f = true.
Proof.
  rewrite hasResults_find, getPrecinctResults_value.
  unfold getPrecinctResults.
  destruct (find _ precincts); cbn; split; congruence.
Qed.

Lemma filter_length_all {A : Type} (f : A -> bool) (l : list A) :
  List.length (filter f l) = List.length l <-> Forall (fun x => f x = true) l.
Proof.
  induction l as [| x l IH]; cbn.
  - split; constructor.
  - pose proof (filter_length_le f l) as Hle.
    destruct (f x) eqn:Hx; cbn.
    + split.
      * intro H. constructor; [assumption |]. apply IH. lia.
      * intro H. apply Forall_inv_tail in H. apply IH in H. lia.
    + split; [lia |]. intro H. apply Forall_inv in H. congruence.
Qed.

(** A part of a whole, as a percentage, lies between 0 and 100. *)
Lemma percentage_bounds (m n : Z) :
  0 <= m <= n -> 0 < n ->
  (0 <= inject_Z m / inject_Z n * inject_Z 100 <= 100)%Q.
Proof.
  intros Hm Hn.
  assert (Hn' : (0 < inject_Z n)%Q)
    by (change 0%Q with (inject_Z 0); rewrite <- Zlt_Qlt; exact Hn).
  assert (H0 : (0 <= inject_Z m / inject_Z n)%Q).
  { apply Qle_shift_div_l; [assumption |]. rewrite Qmult_0_l.
    change 0%Q with (inject_Z 0). rewrite <- Zle_Qle. lia. }
  assert (H1 : (inject_Z m / inject_Z n <= 1)%Q).
  { apply Qle_shift_div_r; [assumption |]. rewrite Qmult_1_l.
    rewrite <- Zle_Qle. lia. }
  change (inject_Z 100) with 100%Q. split; lra.
Qed.

(** X4.  In the matching statistics of the map, [matchedCount] is the
    number of election districts for which [getPrecinctResults] finds a
    record; it is at most [totalElectionDistricts], and equal to it exactly
    when no district makes [getPrecinctResults] log a line.  The match
    percentage is the text 0% when there is no district, and otherwise a
    finite percentage between 0 and 100. *)
Theorem matchingStatistics_counts (features : list Feature)
    (precincts : list PrecinctResult) :
  let s := matchingStatistics features precincts in
  matchedCount s
  = Z.of_nat
      (List.length
         (filter (fun f =>
                    match value (getPrecinctResults precincts (ElectDist f))
                    with Some _ => true | None => false end)
                 features))
  /\ 0 <= matchedCount s <= totalElectionDistricts s
  /\ (matchedCount s = totalElectionDistricts s
      <-> Forall (fun f =>
                    logged (getPrecinctResults precincts (ElectDist f)) = [])
                 features)
  /\ match matchPercentage s with
     | Pct (JS.Fin p) => features <> [] /\ (0 <= p <= 100)%Q
     | Lit text => features = [] /\ text = "0%"
     | _ => False
     end.
Proof.
  intro s. subst s. unfold matchingStatistics.
  cbn [matchedCount totalElectionDistricts matchPercentage].
  pose proof (filter_length_le (hasResults precincts) features) as Hle.
  split; [| split; [lia | split]].
  - f_equal. f_equal. apply filter_ext. intro f. apply hasResults_find.
  - rewrite Nat2Z.inj_iff, filter_length_all.
    split; apply Forall_impl; intro f; apply logged_nil_iff.
  - destruct features as [| f features]; [cbn; auto |].
    set (n := List.length (f :: features)) in *.
    assert (Hn : 0 < Z.of_nat n) by (subst n; cbn [List.length]; lia).
    destruct (Z.gtb_spec (Z.of_nat n) 0); [| lia].
    unfold JS.ofZ at 1. rewrite percentOf_nonzero by lia.
    split; [discriminate |]. apply percentage_bounds; lia.
Qed.

(* ================================================================== *)
(** ** Join keys *)

Lemma to_int_proper (n : Z) :
  Z.to_int n <> Decimal.Pos Decimal.Nil /\ Z.to_int n <> Decimal.Neg Decimal.Nil.
Proof.
  destruct n as [| p | p]; cbn; split; try discriminate;
    intros [= H]; exact (DecimalPos.Unsigned.to_uint_nonnil p H).
Qed.

Lemma toString_parse (n : Z) :
  DecimalString.NilZero.int_of_string (JS.toString n) = Some (Z.to_int n).
Proof.
  destruct (to_int_proper n). now apply DecimalString.NilZero.isi.
Qed.

Lemma toString_inj (a b : Z) : JS.toString a = JS.toString b -> a = b.
Proof.
  intro H. apply (f_equal DecimalString.NilZero.int_of_string) in H.
  rewrite !toString_parse in H. injection H as H.
  apply (f_equal Z.of_int) in H. now rewrite !DecimalZ.of_to in H.
Qed.

Lemma to_uint_no_leading_zero (p : positive) (d : Decimal.uint) :
  Pos.to_uint p <> Decimal.D0 d.
Proof.
  intro H.
  assert (Hn : Decimal.unorm (Pos.to_uint p) = Pos.to_uint p).
  { rewrite <- DecimalPos.Unsigned.to_of, DecimalPos.Unsigned.of_to.
    reflexivity. }
  rewrite H, DecimalFacts.unorm_D0 in Hn.
  destruct (Decimal.nzhead d) eqn:Hd;
    try (rewrite DecimalFacts.unorm_nzhead in Hn by (rewrite Hd; discriminate);
         exact (DecimalFacts.nzhead_nonzero _ _ Hn)).
  assert (H0 : Decimal.unorm d = Decimal.D0 Decimal.Nil)
    by now apply DecimalFacts.unorm_0.
  rewrite H0 in Hn. injection Hn as <-.
  exact (DecimalPos.Unsigned.to_uint_nonzero p H).
Qed.

(** The decimal string of an identifier has no leading zero, unless it is
    the string 0 itself. *)
Lemma toString_no_leading_zero (n : Z) (s : string) :
  JS.toString n = String "0" s -> s = "".
Proof.
  unfold JS.toString. destruct n as [| p | p]; cbn.
  - now intros [= <-].
  - pose proof (DecimalPos.Unsigned.to_uint_nonnil p) as Hnil.
    pose proof (to_uint_no_leading_zero p) as Hz.
    unfold DecimalString.NilZero.string_of_uint.
    destruct (Pos.to_uint p) as [| d | d | d | d | d | d | d | d | d | d];
      cbn; try discriminate; try contradiction.
    exfalso. exact (Hz d eq_refl).
  - discriminate.
Qed.

(** X5.  The join key is faithful to the identifier.  Two different
    district numbers never resolve to the same election record; and a
    record whose [item_id] is written with a leading zero (a zero-padded
    identifier) is resolved for no district number at all. *)
Theorem join_key_faithful (precincts : list PrecinctResult) :
  (forall e1 e2 r,
     value (getPrecinctResults precincts e1) = Some r ->
     value (getPrecinctResults precincts e2) = Some r ->
     e1 = e2)
  /\ (forall r c s e,
        item_id r = String "0" (String c s) ->
        value (getPrecinctResults precincts e) <> Some r).
Proof.
  assert (Hid : forall e r,
             value (getPrecinctResults precincts e) = Some r ->
             item_id r = JS.toString e).
  { intros e r H. rewrite getPrecinctResults_value in H.
    apply find_some in H. destruct H as [_ H]. now apply String.eqb_eq in H. }
  split.
  - intros e1 e2 r H1 H2. apply toString_inj.
    now rewrite <- (Hid _ _ H1), <- (Hid _ _ H2).
  - intros r c s e Hpad Hfound. apply Hid in Hfound.
    rewrite Hpad in Hfound. symmetry in Hfound.
    apply toString_no_leading_zero in Hfound. discriminate.
Qed.

(** A zero-padded record next to the canonical one: the padded record is
    never the answer. *)
Example zero_padded_record_unreachable :
  value (getPrecinctResults
           [precinct_of "023001" 10 []; precinct_of "23001" 20 []] 23001)
  = Some (precinct_of "23001" 20 []).
Proof. reflexivity. Qed.

(* ================================================================== *)
(** ** The ranking of a popup *)

Lemma insert_perm {A : Type} (cmp : A -> A -> Z) (x : A) (l : list A) :
  Permutation (JS.insert cmp x l) (x :: l).
Proof.
  induction l as [| y l IH]; cbn; [reflexivity |].
  destruct (cmp x y >? 0); [| reflexivity].
  rewrite IH. apply perm_swap.
Qed.

Lemma sort_perm {A : Type} (cmp : A -> A -> Z) (l : list A) :
  Permutation (JS.sort cmp l) l.
Proof.
  induction l as [| x l IH]; cbn; [reflexivity |].
  now rewrite insert_perm, IH.
Qed.

Lemma insert_descending (x : string * Z) (l : list (string * Z)) :
  votesDescending l -> votesDescending (JS.insert byVotesDesc x l).
Proof.
  unfold votesDescending. induction 1 as [| y l Hl IH Hy]; cbn.
  - repeat constructor.
  - unfold byVotesDesc at 1.
    destruct (snd y - snd x >? 0) eqn:Hc.
    + constructor; [assumption |].
      rewrite (insert_perm byVotesDesc x l).
      constructor; [lia | assumption].
    + constructor; [constructor; assumption |].
      constructor; [lia |].
      eapply Forall_impl; [| exact Hy]. cbn. intros; lia.
Qed.

Lemma sort_descending (l : list (string * Z)) :
  votesDescending (JS.sort byVotesDesc l).
Proof.
  induction l as [| x l IH]; cbn; [constructor |].
  now apply insert_descending.
Qed.

(** What the table of names gives: the name of a listed key, the key
    itself when it is not listed, and for the name of an inherited member
    that member, which is not a string. *)
Example names_of_keys :
  WithPrototype.displayName "cuomo-a" = WithPrototype.Str "Cuomo"
  /\ WithPrototype.displayName "walden-j" = WithPrototype.Str "walden-j"
  /\ WithPrototype.displayName "constructor"
     = WithPrototype.Member "constructor".
Proof. repeat split. Qed.

(** X6.  For a precinct none of whose candidate keys is the name of a
    member inherited from [Object.prototype], the results list of the popup
    has one line per candidate key other than the write-in key, each key
    once, in non-increasing order of votes, under the name the table of
    names gives the key or else under the key itself; and the winner
    printed above it is the name on its first line, or the text No data
    when there is no line or the first key is the empty string. *)
Theorem popup_ranking (precincts : list PrecinctResult)
    (getVoterCounts : Z -> option VoterCounts.t)
    (f : Feature) (viewMode : ViewMode) (r : PrecinctResult) :
  value (getPrecinctResults precincts (ElectDist f)) = Some r ->
  Forall (fun kv => inheritedMember (fst kv) = false) (candidateEntries r) ->
  let m := value (onEachPrecinct precincts getVoterCounts f viewMode) in
  exists ranked,
    Permutation ranked (candidateEntries r)
    /\ votesDescending ranked
    /\ Forall
         (fun kv =>
            WithPrototype.displayName (fst kv)
            = WithPrototype.Str (displayName (fst kv)))
         ranked
    /\ map (fun line => (fst (fst line), snd (fst line))) (el_results m)
       = map (fun kv => (displayName (fst kv), snd kv)) ranked
    /\ el_winner m
       = match ranked with
         | (key, _) :: _ =>
             if JS.truthy key then Lit (displayName key) else Lit "No data"
         | [] => Lit "No data"
         end.
Proof.
  intros Hr Hown m. subst m. exists (rankedCandidates r).
  unfold onEachPrecinct. rewrite value_bind, Hr.
  cbn [value ret fst el_results el_winner].
  split; [apply sort_perm |]. split; [apply sort_descending |]. split; [| split].
  - rewrite Forall_forall in *. intros kv Hin.
    apply read_own_key, Hown.
    apply (Permutation_in _ (sort_perm byVotesDesc (candidateEntries r))).
    exact Hin.
  - rewrite map_map. apply map_ext. now intros [k v].
  - rewrite getWinningCandidate_ranked.
    destruct (rankedCandidates r) as [| [k v] rest]; [reflexivity |].
    destruct (JS.truthy k) eqn:Hk; [now rewrite Hk | reflexivity].
Qed.

Lemma popup_ranking_witness :
  value (getPrecinctResults [precinct_half] (ElectDist feature_a))
  = Some precinct_half
  /\ Forall (fun kv => inheritedMember (fst kv) = false)
       (candidateEntries precinct_half)
  /\ map (fun line => (fst (fst line), snd (fst line)))
       (el_results
          (value (onEachPrecinct [precinct_half] no_registration
                    feature_a election_results)))
     = [("Cuomo", 500); ("Mamdani", 300); ("Lander", 200)]
  /\ exists ranked,
       Permutation ranked (candidateEntries precinct_half)
       /\ votesDescending ranked
       /\ el_winner
            (value (onEachPrecinct [precinct_half] no_registration
                      feature_a election_results))
          = match ranked with
            | (key, _) :: _ =>
                if JS.truthy key then Lit (displayName key) else Lit "No data"
            | [] => Lit "No data"
            end.
Proof.
  assert (Hown : Forall (fun kv => inheritedMember (fst kv) = false)
                   (candidateEntries precinct_half))
    by (repeat constructor).
  split; [reflexivity |]. split; [exact Hown |]. split; [reflexivity |].
  destruct (popup_ranking [precinct_half] no_registration feature_a
              election_results precinct_half eq_refl Hown)
    as (ranked & Hperm & Hdesc & _ & _ & Hwin).
  exists ranked. split; [exact Hperm |]. split; [exact Hdesc | exact Hwin].
Defined.

(* ================================================================== *)
(** ** Census tracts *)

Lemma genZFill_bins (p : Q) :
  bucketOf genZBins p = Some (genZFill (JS.Fin p))
  /\ binsHolding genZBins p = 1%nat.
Proof.
  unfold genZFill, JS.ofZ, inject_Z. rewrite !ge_Fin.
  unfold bucketOf, binsHolding, genZBins, inBin, halfOpen.
  cbn -[Qle_bool]. split_thresholds; split; reflexivity.
Qed.

(** X7.  The age-demographics table has 7 bins, each closed below and open
    above, the top one unbounded, and every finite share falls in exactly
    one of them.  A defined Gen-Z share of a tract with a positive
    population is a finite number strictly above 0, so the bottom bin
    holds the shares strictly between 0 and 5; with a negative population
    the share is negative and lands in the bottom bin as well. *)
Theorem genZ_view_table :
  (List.length genZBins = 7%nat
   /\ forallb isHalfOpen genZBins = true
   /\ last (map upper genZBins) (Some 0%Q) = None)
  /\ (forall p : Q,
        bucketOf genZBins p = Some (genZFill (JS.Fin p))
        /\ binsHolding genZBins p = 1%nat)
  /\ (forall groups population share,
        calculateGenZPercentage groups (Some population) = Some share ->
        exists q,
          share = JS.Fin q
          /\ (0 < population -> (0 < q)%Q)
          /\ (population < 0 -> (q < 0)%Q /\ genZFill share = "#c51b7d")).
Proof.
  split; [repeat split |]. split; [apply genZFill_bins |].
  intros [groups |] population share; [| discriminate].
  unfold calculateGenZPercentage.
  destruct (Z.eqb_spec population 0) as [| Hp]; [discriminate |].
  destruct (Qeq_bool (genZCount groups) 0) eqn:Hq; [discriminate |].
  rewrite percentOf_nonzero by assumption. intros [= <-].
  eexists. split; [reflexivity |].
  assert (Hc : (0 < genZCount groups)%Q).
  { pose proof (genZCount_nonneg groups) as Hn.
    destruct (Qlt_le_dec 0 (genZCount groups)) as [| Hle]; [assumption |].
    assert (Heq : (genZCount groups == 0)%Q) by lra.
    apply Qeq_bool_iff in Heq. congruence. }
  set (c := genZCount groups) in *.
  assert (Hdiv : forall d : Q, (0 < d)%Q -> (0 < c / d * inject_Z 100)%Q).
  { intros d Hd. apply Qmult_lt_0_compat; [| reflexivity].
    apply Qlt_shift_div_l; [assumption | lra]. }
  split.
  - intro Hpos. apply Hdiv.
    change 0%Q with (inject_Z 0). rewrite <- Zlt_Qlt. lia.
  - intro Hneg.
    assert (Hd : (0 < - inject_Z population)%Q).
    { rewrite <- inject_Z_opp. change 0%Q with (inject_Z 0).
      rewrite <- Zlt_Qlt. lia. }
    assert (Hq' : (c / inject_Z population * inject_Z 100
                   == - (c / (- inject_Z population) * inject_Z 100))%Q).
    { field. intro H0. rewrite H0 in Hd. lra. }
    pose proof (Hdiv _ Hd) as Hpos.
    assert (Hlt : (c / inject_Z population * inject_Z 100 < 0)%Q) by lra.
    split; [exact Hlt |].
    unfold genZFill, JS.ofZ, inject_Z in *. rewrite !ge_Fin.
    split_thresholds; reflexivity.
Qed.

(** X8.  The classification of a census tract does not depend on whether
    the age-demographics view is the active one: the flag changes the
    stroke and the opacity only (weight 1 and fill opacity 0.7 when active,
    0.5 and 0.3 otherwise), never the fill colour. *)
Theorem tract_fill_independent_of_view (t : TractFeature) :
  TractStyle.fillColor (styleCensusTract t true)
  = TractStyle.fillColor (styleCensusTract t false)
  /\ (forall viewMode viewMode',
        TractStyle.fillColor (censusTractStyleWrapper viewMode t)
        = TractStyle.fillColor (censusTractStyleWrapper viewMode' t))
  /\ (TractStyle.weight (styleCensusTract t true) = 1
      /\ TractStyle.fillOpacity (styleCensusTract t true) = 7 # 10
      /\ TractStyle.weight (styleCensusTract t false) = 1 # 2
      /\ TractStyle.fillOpacity (styleCensusTract t false) = 3 # 10
      /\ TractStyle.color (styleCensusTract t false) = "#888888")%Q.
Proof.
  assert (H : forall b b',
             TractStyle.fillColor (styleCensusTract t b)
             = TractStyle.fillColor (styleCensusTract t b')).
  { intros b b'. unfold styleCensusTract.
    repeat match goal with
      | |- context [match ?x with _ => _ end] => destruct x
      end; reflexivity. }
  split; [apply H |]. split; [intros; apply H |].
  unfold styleCensusTract.
  repeat match goal with
    | |- context [match ?x with _ => _ end] => destruct x
    end; repeat split.
Qed.

Lemma tractLines_shown (groups : option (list (string * option AgeGroup.t)))
    (totalPop : Z) :
  Forall (fun line =>
            if totalPop >? 0
            then exists p, snd line = Pct (JS.Fin p)
            else snd line = Lit "0.0")
         (tractLines groups totalPop).
Proof.
  unfold tractLines. destruct groups as [entries |]; [| constructor].
  apply Forall_flat_map. apply Forall_forall. intros key _.
  destruct (JS.prop entries key) as [[[[n |]] |] |]; try constructor;
    [| constructor].
  cbn. destruct (totalPop >? 0) eqn:Hp; [| reflexivity].
  unfold JS.ofZ at 1. rewrite percentOf_nonzero by lia. eauto.
Qed.

(** X9.  The popup of a census tract agrees with its style: the Gen-Z line
    is printed exactly when the tract is classified, with the share that
    the fill colour classifies, and it is left out exactly when the style
    is the no-data style.  The percentages of the age lists are finite
    numbers when the population is positive and the text 0.0 otherwise;
    the title is never empty. *)
Theorem tract_popup_matches_style (props : option TractPopupProps)
    (isPrimaryView : bool) :
  let popup := onEachCensusTract props in
  let style := styleCensusTract (tractFeatureOf props) isPrimaryView in
  match tp_genZ popup with
  | Pct share =>
      TractStyle.fillColor style = genZFill share
      /\ style <> tractNoData isPrimaryView
      /\ exists pop, tp_totalPopulation popup = Some pop /\ pop <> 0
  | Omitted => style = tractNoData isPrimaryView
  | Lit _ => False
  end
  /\ Forall (fun line =>
               match tp_totalPopulation popup with
               | Some pop =>
                   if pop >? 0
                   then exists p, snd line = Pct (JS.Fin p)
                   else snd line = Lit "0.0"
               | None => False
               end)
            (tp_ageDistribution popup ++ tp_selectedCategories popup)
  /\ tp_name popup <> "".
Proof.
  intros popup style. subst popup style. split; [| split].
  - unfold onEachCensusTract, styleCensusTract, tractFeatureOf.
    destruct props as [[[[pop |] ag] name label moe sel] |]; cbn;
      try reflexivity.
    destruct (Z.eqb_spec pop 0) as [-> | Hp].
    + destruct ag; reflexivity.
    + destruct (calculateGenZPercentage ag (Some pop)) as [share |];
        [| reflexivity].
      split; [reflexivity |]. split; [| eauto].
      unfold tractNoData. destruct isPrimaryView; discriminate.
  - unfold onEachCensusTract.
    destruct props as [[[[pop |] ag] name label moe sel] |]; cbn;
      try constructor.
    apply Forall_app. split; apply tractLines_shown.
  - unfold onEachCensusTract.
    assert (Hname : forall a b : option string,
               JS.or_else a (JS.or_else b "Unknown") <> "").
    { intros a b. unfold JS.or_else.
      destruct a as [x |], b as [y |];
        try destruct (JS.truthy x) eqn:Hx;
        try destruct (JS.truthy y) eqn:Hy;
        try discriminate;
        try (now apply truthy_iff). }
    destruct props as [[[[pop |] ag] name label moe sel] |];
      cbn [tp_name]; first [apply Hname | discriminate].
Qed.

(* ================================================================== *)
(** ** Popup and style of a precinct *)

(** X10.  The number the precinct popup formats is the number the map
    colours by: when the popup has a Democratic turnout, a Zohran support
    or a Democratic registration share to print, the fill of the turnout,
    Zohran-support or registration view is the colour of the bin of that
    number as it is before [toFixed(1)] rounds it for display. *)
Theorem popup_matches_style (precincts : list PrecinctResult)
    (getVoterCounts : Z -> option VoterCounts.t) (f : Feature) :
  let popup viewMode :=
    value (onEachPrecinct precincts getVoterCounts f viewMode) in
  let fill viewMode :=
    fillColor (value (styleFunction precincts getVoterCounts viewMode f)) in
  (forall viewMode p,
     el_demTurnout (popup viewMode) = Pct p -> fill turnout = turnoutFill p)
  /\ (forall p,
        el_zohranSupport (popup zohran_support) = Pct p ->
        fill zohran_support = zohranFill p)
  /\ (forall viewMode p,
        reg_demPercentage (popup viewMode) = Pct p ->
        fill voter_registration = votersFill p).
Proof.
  intros popup fill. subst popup fill. cbn [styleFunction].
  repeat split; intros;
    match goal with
    | H : _ = Pct _ |- _ =>
        unfold onEachPrecinct in H; rewrite value_bind in H
    end;
    unfold stylePrecinctByTurnout, stylePrecinctByZohranSupport,
      stylePrecinctByVoters;
    rewrite ?value_bind;
    destruct (value (getPrecinctResults precincts (ElectDist f))) as [r |];
    destruct (getVoterCounts (ElectDist f)) as [v |];
    cbn [value ret fst el_demTurnout el_zohranSupport reg_demPercentage] in *;
    try discriminate;
    repeat match goal with
      | H : (if ?c then _ else _) = Pct _ |- _ =>
          let E := fresh "E" in destruct c eqn:E; [| discriminate H]
      | H : Pct _ = Pct _ |- _ => injection H as <-
      end;
    try match goal with
      | |- context [?x =? 0] =>
          destruct (Z.eqb_spec x 0); [lia |]
      end;
    reflexivity.
Qed.

(* ================================================================== *)
(** ** The earlier and the final results view *)

(** X11.  The final results view shades the colour of the earlier
    component.  For a feature whose winner, if any, is not the name of a
    member inherited from [Object.prototype]: when the precinct has a
    winner the earlier fill is the winner's base colour and the final fill
    is that colour shaded by the win percentage; otherwise both give the
    no-data colour. *)
Theorem results_view_shades_earlier (precincts : list PrecinctResult)
    (random : Q) (f : Feature) :
  ownWinner precincts f ->
  let earlier := fillColor (value (stylePrecinct precincts random f)) in
  let final := value (WithPrototype.stylePrecinctByResults precincts f) in
  let returns c :=
    WithPrototype.Returned (WithPrototype.mkStyle (WithPrototype.Str c)) in
  match value (getPrecinctResults precincts (ElectDist f)) with
  | Some r =>
      match getWinningCandidate (Some r) with
      | Some w =>
          WithPrototype.baseColorOf w = WithPrototype.Str earlier
          /\ final = returns (resultsFill earlier (winPercentage r w))
      | None => earlier = noDataColor /\ final = returns noDataColor
      end
  | None => earlier = noDataColor /\ final = returns noDataColor
  end.
Proof.
  intros Hown earlier final returns. subst earlier final returns.
  rewrite (results_view_own_keys precincts f Hown). cbn [value fst].
  rewrite stylePrecinct_value. unfold stylePrecinctByResults.
  rewrite value_bind.
  destruct (value (getPrecinctResults precincts (ElectDist f))) as [r |] eqn:Hr;
    [| split; reflexivity].
  destruct (getWinningCandidate (Some r)) as [w |] eqn:Hw;
    [| split; reflexivity].
  destruct (winner_in_results r w Hw) as (Hne & _).
  apply truthy_iff in Hne. rewrite Hne. split; [| reflexivity].
  apply read_own_key. exact (Hown r w Hr Hw).
Qed.

Lemma results_view_shades_earlier_witness :
  ownWinner [precinct_half] feature_a
  /\ fillColor (value (stylePrecinct [precinct_half] (1 # 2) feature_a))
     = "#1f77b4"
  /\ value (WithPrototype.stylePrecinctByResults [precinct_half] feature_a)
     = WithPrototype.Returned
         (WithPrototype.mkStyle
            (WithPrototype.Str
               (resultsFill "#1f77b4"
                  (winPercentage precinct_half "cuomo-a")))).
Proof.
  assert (Hown : ownWinner [precinct_half] feature_a).
  { intros r w Hr Hw. cbn in Hr. injection Hr as <-.
    cbn in Hw. now injection Hw as <-. }
  split; [exact Hown |]. split; [reflexivity |].
  exact (proj2 (results_view_shades_earlier [precinct_half] (1 # 2) feature_a
                  Hown)).
Defined.

(* ================================================================== *)
(** ** Order of the colour ramps *)

Ltac ramp_order :=
  unfold JS.ofZ, inject_Z; rewrite ?ge_Fin, ?lt_Fin, ?gt_Fin;
  split_thresholds; cbn; lia.

(** X12.  The threshold chains are monotone: a larger percentage never
    falls in a lower bin of the turnout, registration, Zohran-support or
    Gen-Z colour ramp. *)
Theorem classification_monotone (p q : Q) :
  (p <= q)%Q ->
  (rampIndex (map bucket turnoutBins) (turnoutFill (JS.Fin p))
   <= rampIndex (map bucket turnoutBins) (turnoutFill (JS.Fin q))
   /\ rampIndex (map bucket votersBins) (votersFill (JS.Fin p))
      <= rampIndex (map bucket votersBins) (votersFill (JS.Fin q))
   /\ rampIndex (map bucket zohranBins) (zohranFill (JS.Fin p))
      <= rampIndex (map bucket zohranBins) (zohranFill (JS.Fin q))
   /\ rampIndex (map bucket genZBins) (genZFill (JS.Fin p))
      <= rampIndex (map bucket genZBins) (genZFill (JS.Fin q)))%nat.
Proof.
  intro Hpq. repeat split.
  - unfold turnoutFill. ramp_order.
  - unfold votersFill. ramp_order.
  - unfold zohranFill. ramp_order.
  - unfold genZFill. ramp_order.
Qed.

Lemma classification_monotone_witness :
  (25 <= 62)%Q
  /\ (rampIndex (map bucket turnoutBins) (turnoutFill (JS.Fin 25))
      <= rampIndex (map bucket turnoutBins) (turnoutFill (JS.Fin 62)))%nat.
Proof.
  assert (H : (25 <= 62)%Q) by (unfold Qle; cbn; lia).
  split; [exact H |].
  exact (proj1 (classification_monotone 25 62 H)).
Defined.

(* ================================================================== *)
(** ** Shades of a colour *)

Lemma hexDigit_hexChars (c : ascii) :
  isHexChar c = true -> In c hexChars.
Proof.
  intro H.
  assert (Hb : existsb (Ascii.eqb c) hexChars = true).
  { revert H. destruct c as [[] [] [] [] [] [] [] []];
      vm_compute; intro H; first [reflexivity | discriminate H]. }
  apply existsb_exists in Hb. destruct Hb as (x & Hin & Hx).
  apply Ascii.eqb_eq in Hx. now subst x.
Qed.

Lemma all_channels_ordered :
  forallb (fun c1 =>
             forallb (fun c2 =>
                        channelOrdered (String c1 (String c2 ""))
                        && channelExtremes (String c1 (String c2 "")))
                     hexChars)
          hexChars
  = true.
Proof. vm_compute. reflexivity. Qed.

Lemma channel_checks (c1 c2 : ascii) :
  isHexChar c1 = true -> isHexChar c2 = true ->
  channelOrdered (String c1 (String c2 "")) = true
  /\ channelExtremes (String c1 (String c2 "")) = true.
Proof.
  intros H1 H2. apply hexDigit_hexChars in H1, H2.
  pose proof all_channels_ordered as Hall.
  rewrite forallb_forall in Hall. specialize (Hall c1 H1).
  rewrite forallb_forall in Hall. specialize (Hall c2 H2).
  now apply andb_prop in Hall.
Qed.

Lemma twoHex_shape (s : string) (v : Z) :
  twoHex s = Some v ->
  exists x y a b,
    s = String x (String y "")
    /\ JS.hexDigit x = Some a /\ JS.hexDigit y = Some b /\ v = 16 * a + b.
Proof.
  destruct s as [| x [| y [| z s]]]; cbn; try discriminate.
  destruct (JS.hexDigit x) as [a |] eqn:Hx; [| discriminate].
  destruct (JS.hexDigit y) as [b |] eqn:Hy; [| discriminate].
  intros [= <-]. exists x, y, a, b. auto.
Qed.

(** A colour is a hash sign and three pairs of hexadecimal digits. *)
Lemma isHexColor_inv (color : string) :
  isHexColor color = true ->
  exists c1 c2 c3 c4 c5 c6,
    color
    = String "#" (String c1 (String c2 (String c3
        (String c4 (String c5 (String c6 ""))))))
    /\ isHexChar c1 = true /\ isHexChar c2 = true /\ isHexChar c3 = true
    /\ isHexChar c4 = true /\ isHexChar c5 = true /\ isHexChar c6 = true.
Proof.
  destruct color as [| h digits]; [discriminate |]. cbn [isHexColor].
  intro H. apply andb_prop in H. destruct H as [H Hall].
  apply andb_prop in H. destruct H as [Hh Hlen].
  apply Ascii.eqb_eq in Hh. subst h.
  destruct digits as [| c1 [| c2 [| c3 [| c4 [| c5 [| c6 [| c7 rest]]]]]]];
    try discriminate Hlen.
  cbn in Hall. fold (isHexChar c1) (isHexChar c2) (isHexChar c3)
    (isHexChar c4) (isHexChar c5) (isHexChar c6) in Hall.
  repeat (apply andb_prop in Hall; destruct Hall as [? Hall]).
  exists c1, c2, c3, c4, c5, c6. repeat split; assumption.
Qed.

(** Three printed channels make a colour, with the channels printed. *)
Lemma printed_color (o1 o2 o3 : string) (v1 v2 v3 : Z) :
  twoHex o1 = Some v1 -> twoHex o2 = Some v2 -> twoHex o3 = Some v3 ->
  channels ("#" ++ o1 ++ o2 ++ o3) = Some (v1, v2, v3)
  /\ isHexColor ("#" ++ o1 ++ o2 ++ o3) = true.
Proof.
  intros H1 H2 H3.
  destruct (twoHex_shape _ _ H1) as (x1 & y1 & a1 & b1 & -> & Hx1 & Hy1 & ->).
  destruct (twoHex_shape _ _ H2) as (x2 & y2 & a2 & b2 & -> & Hx2 & Hy2 & ->).
  destruct (twoHex_shape _ _ H3) as (x3 & y3 & a3 & b3 & -> & Hx3 & Hy3 & ->).
  unfold channels, channelOf, isHexColor. cbn.
  now rewrite Hx1, Hy1, Hx2, Hy2, Hx3, Hy3.
Qed.

Lemma darkenColor_channels (c1 c2 c3 c4 c5 c6 : ascii) (amount : float) :
  darkenColor
    (String "#" (String c1 (String c2 (String c3
       (String c4 (String c5 (String c6 "")))))))
    amount
  = ("#" ++ darkChannel amount (JS.parseInt16 (String c1 (String c2 "")))
         ++ darkChannel amount (JS.parseInt16 (String c3 (String c4 "")))
         ++ darkChannel amount (JS.parseInt16 (String c5 (String c6 ""))))%string.
Proof. reflexivity. Qed.

Lemma lightenColor_channels (c1 c2 c3 c4 c5 c6 : ascii) (amount : float) :
  lightenColor
    (String "#" (String c1 (String c2 (String c3
       (String c4 (String c5 (String c6 "")))))))
    amount
  = ("#" ++ lightChannel amount (JS.parseInt16 (String c1 (String c2 "")))
         ++ lightChannel amount (JS.parseInt16 (String c3 (String c4 "")))
         ++ lightChannel amount (JS.parseInt16 (String c5 (String c6 ""))))%string.
Proof. reflexivity. Qed.

Lemma channelOrdered_inv (s : string) :
  channelOrdered s = true ->
  exists v d3 d2 l2 l4,
    twoHex s = Some v
    /\ twoHex (darkChannel 0.3 (JS.parseInt16 s)) = Some d3
    /\ twoHex (darkChannel 0.2 (JS.parseInt16 s)) = Some d2
    /\ twoHex (lightChannel 0.2 (JS.parseInt16 s)) = Some l2
    /\ twoHex (lightChannel 0.4 (JS.parseInt16 s)) = Some l4
    /\ 0 <= d3 <= d2 /\ d2 <= v <= l2 /\ l2 <= l4 <= 255.
Proof.
  unfold channelOrdered.
  destruct (twoHex s) as [v |]; [| discriminate].
  destruct (twoHex (darkChannel 0.3 _)) as [d3 |]; [| discriminate].
  destruct (twoHex (darkChannel 0.2 _)) as [d2 |]; [| discriminate].
  destruct (twoHex (lightChannel 0.2 _)) as [l2 |]; [| discriminate].
  destruct (twoHex (lightChannel 0.4 _)) as [l4 |]; [| discriminate].
  intro H. exists v, d3, d2, l2, l4. repeat split; lia.
Qed.

(** The five shades of a colour, channel by channel. *)
Lemma shades_chain (base : string) :
  isHexColor base = true ->
  exists c d3 d2 l2 l4,
    channels base = Some c
    /\ channels (darkenColor base 0.3) = Some d3
    /\ channels (darkenColor base 0.2) = Some d2
    /\ channels (lightenColor base 0.2) = Some l2
    /\ channels (lightenColor base 0.4) = Some l4
    /\ (isHexColor (darkenColor base 0.3) = true
        /\ isHexColor (darkenColor base 0.2) = true
        /\ isHexColor (lightenColor base 0.2) = true
        /\ isHexColor (lightenColor base 0.4) = true)
    /\ darkerOrEqual (0, 0, 0) d3
    /\ darkerOrEqual d3 d2
    /\ darkerOrEqual d2 c
    /\ darkerOrEqual c l2
    /\ darkerOrEqual l2 l4
    /\ darkerOrEqual l4 (255, 255, 255).
Proof.
  intro H. apply isHexColor_inv in H.
  destruct H as (c1 & c2 & c3 & c4 & c5 & c6 & -> & H1 & H2 & H3 & H4 & H5 & H6).
  destruct (channel_checks c1 c2 H1 H2) as [Ha _].
  destruct (channel_checks c3 c4 H3 H4) as [Hb _].
  destruct (channel_checks c5 c6 H5 H6) as [Hc _].
  apply channelOrdered_inv in Ha, Hb, Hc.
  destruct Ha as (v1 & a3 & a2 & a2' & a4 & Hv1 & Ha3 & Ha2 & Ha2' & Ha4 & ?).
  destruct Hb as (v2 & b3 & b2 & b2' & b4 & Hv2 & Hb3 & Hb2 & Hb2' & Hb4 & ?).
  destruct Hc as (v3 & e3 & e2 & e2' & e4 & Hv3 & He3 & He2 & He2' & He4 & ?).
  rewrite !darkenColor_channels, !lightenColor_channels.
  destruct (printed_color _ _ _ _ _ _ Hv1 Hv2 Hv3) as [Hc0 _].
  destruct (printed_color _ _ _ _ _ _ Ha3 Hb3 He3) as [Hc3 Hx3].
  destruct (printed_color _ _ _ _ _ _ Ha2 Hb2 He2) as [Hc2 Hx2].
  destruct (printed_color _ _ _ _ _ _ Ha2' Hb2' He2') as [Hc2' Hx2'].
  destruct (printed_color _ _ _ _ _ _ Ha4 Hb4 He4) as [Hc4 Hx4].
  exists (v1, v2, v3), (a3, b3, e3), (a2, b2, e2), (a2', b2', e2'),
    (a4, b4, e4).
  repeat split; try assumption; lia.
Qed.

(** X13.  For every colour [#rrggbb], the shades used by the results view
    are colours again, and channel by channel they are ordered
    darken 0.3 <= darken 0.2 <= the colour <= lighten 0.2 <= lighten 0.4,
    within 0..255: darkening never raises a channel and lightening never
    lowers one. *)
Theorem shades_are_ordered_colours (base : string) :
  isHexColor base = true ->
  Forall (fun c => isHexColor c = true)
    [darkenColor base 0.3; darkenColor base 0.2;
     lightenColor base 0.2; lightenColor base 0.4]
  /\ exists c d3 d2 l2 l4,
       channels base = Some c
       /\ channels (darkenColor base 0.3) = Some d3
       /\ channels (darkenColor base 0.2) = Some d2
       /\ channels (lightenColor base 0.2) = Some l2
       /\ channels (lightenColor base 0.4) = Some l4
       /\ darkerOrEqual (0, 0, 0) d3
       /\ darkerOrEqual d3 d2
       /\ darkerOrEqual d2 c
       /\ darkerOrEqual c l2
       /\ darkerOrEqual l2 l4
       /\ darkerOrEqual l4 (255, 255, 255).
Proof.
  intro H.
  destruct (shades_chain base H)
    as (c & d3 & d2 & l2 & l4 & H0 & H3 & H2 & H2' & H4
        & (X3 & X2 & X2' & X4) & ?).
  split; [repeat constructor; assumption |].
  exists c, d3, d2, l2, l4. repeat split; tauto.
Qed.

Lemma shades_are_ordered_colours_witness :
  isHexColor "#1f77b4" = true
  /\ Forall (fun c => isHexColor c = true)
       [darkenColor "#1f77b4" 0.3; darkenColor "#1f77b4" 0.2;
        lightenColor "#1f77b4" 0.2; lightenColor "#1f77b4" 0.4].
Proof.
  split; [reflexivity |].
  exact (proj1 (shades_are_ordered_colours "#1f77b4" eq_refl)).
Defined.

Lemma channelExtremes_inv (s : string) :
  channelExtremes s = true ->
  exists v,
    twoHex s = Some v
    /\ twoHex (darkChannel 0 (JS.parseInt16 s)) = Some v
    /\ lightChannel 0 (JS.parseInt16 s) = darkChannel 0 (JS.parseInt16 s)
    /\ darkChannel 1 (JS.parseInt16 s) = "00"
    /\ lightChannel 1 (JS.parseInt16 s) = "ff".
Proof.
  unfold channelExtremes.
  destruct (twoHex s) as [v |]; [| discriminate].
  destruct (twoHex (darkChannel 0 _)) as [v' |]; [| discriminate].
  intro H. repeat (apply andb_prop in H; destruct H as [H ?]).
  apply Z.eqb_eq in H. subst v'.
  exists v. repeat split; try (now apply String.eqb_eq).
Qed.

(** X14.  Print and parse are inverse on colours: shading a colour
    [#rrggbb] by amount 0 gives back a colour with the same three channels
    (in lower-case digits), the same for [darkenColor] and [lightenColor];
    and amount 1 gives black, respectively white. *)
Theorem shade_identity_and_extremes (base : string) :
  isHexColor base = true ->
  channels (darkenColor base 0) = channels base
  /\ isHexColor (darkenColor base 0) = true
  /\ lightenColor base 0 = darkenColor base 0
  /\ darkenColor base 1 = "#000000"
  /\ lightenColor base 1 = "#ffffff".
Proof.
  intro H. apply isHexColor_inv in H.
  destruct H as (c1 & c2 & c3 & c4 & c5 & c6 & -> & H1 & H2 & H3 & H4 & H5 & H6).
  destruct (channel_checks c1 c2 H1 H2) as [_ Ha].
  destruct (channel_checks c3 c4 H3 H4) as [_ Hb].
  destruct (channel_checks c5 c6 H5 H6) as [_ Hc].
  apply channelExtremes_inv in Ha, Hb, Hc.
  destruct Ha as (v1 & Hv1 & Hd1 & Hl1 & Hk1 & Hw1).
  destruct Hb as (v2 & Hv2 & Hd2 & Hl2 & Hk2 & Hw2).
  destruct Hc as (v3 & Hv3 & Hd3 & Hl3 & Hk3 & Hw3).
  rewrite !darkenColor_channels, !lightenColor_channels.
  rewrite Hl1, Hl2, Hl3, Hk1, Hk2, Hk3, Hw1, Hw2, Hw3.
  destruct (printed_color _ _ _ _ _ _ Hv1 Hv2 Hv3) as [Hc0 _].
  destruct (printed_color _ _ _ _ _ _ Hd1 Hd2 Hd3) as [Hc1 Hx1].
  repeat split; try assumption.
  now rewrite Hc1, <- Hc0.
Qed.

Lemma shade_identity_and_extremes_witness :
  isHexColor "#1F77B4" = true
  /\ darkenColor "#1F77B4" 0 = "#1f77b4"
  /\ channels (darkenColor "#1F77B4" 0) = channels "#1F77B4".
Proof.
  split; [reflexivity |]. split; [reflexivity |].
  exact (proj1 (shade_identity_and_extremes "#1F77B4" eq_refl)).
Defined.

Lemma list_ascii_of_string_app (a b : string) :
  list_ascii_of_string (a ++ b)
  = (list_ascii_of_string a ++ list_ascii_of_string b)%list.
Proof. induction a as [| c a IH]; cbn; [reflexivity | now rewrite IH]. Qed.

Lemma not_color_with_NaN (o1 o2 o3 : string) :
  o1 = "NaN" \/ o2 = "NaN" \/ o3 = "NaN" ->
  isHexColor ("#" ++ o1 ++ o2 ++ o3) = false.
Proof.
  intro H. cbn [append isHexColor].
  destruct (forallb _ (list_ascii_of_string (o1 ++ o2 ++ o3))) eqn:Hall;
    [| now rewrite andb_false_r].
  exfalso. rewrite !list_ascii_of_string_app, !forallb_app in Hall.
  repeat (apply andb_prop in Hall; destruct Hall as [? Hall]).
  destruct H as [-> | [-> | ->]]; discriminate.
Qed.

Lemma substring_beyond (s : string) (n m : nat) :
  (String.length s <= n)%nat -> String.substring n m s = "".
Proof.
  revert n. induction s as [| c s IH]; intros n H.
  - destruct n, m; reflexivity.
  - destruct n as [| n]; cbn in H; [lia |].
    cbn. apply IH. lia.
Qed.

(** X15.  A colour whose text after the [#] has at most four characters,
    as the shorthand [#fff] has, is never shaded into a colour: its third
    channel is the empty string, which parses to NaN and prints as NaN. *)
Theorem malformed_colour_not_shaded (color : string) :
  (String.length (JS.removeFirstHash color) <= 4)%nat ->
  channel (JS.removeFirstHash color) 4 = PrimFloat.nan
  /\ Forall (fun c => isHexColor c = false)
       [darkenColor color 0.3; darkenColor color 0.2;
        lightenColor color 0.2; lightenColor color 0.4].
Proof.
  intro H.
  assert (Hnan : channel (JS.removeFirstHash color) 4 = PrimFloat.nan).
  { unfold channel, JS.substr. now rewrite (substring_beyond _ 4 2 H). }
  split; [exact Hnan |].
  repeat constructor;
    [ change (darkenColor color 0.3) with
        ("#" ++ darkChannel 0.3 (channel (JS.removeFirstHash color) 0)
             ++ darkChannel 0.3 (channel (JS.removeFirstHash color) 2)
             ++ darkChannel 0.3 (channel (JS.removeFirstHash color) 4))%string
    | change (darkenColor color 0.2) with
        ("#" ++ darkChannel 0.2 (channel (JS.removeFirstHash color) 0)
             ++ darkChannel 0.2 (channel (JS.removeFirstHash color) 2)
             ++ darkChannel 0.2 (channel (JS.removeFirstHash color) 4))%string
    | change (lightenColor color 0.2) with
        ("#" ++ lightChannel 0.2 (channel (JS.removeFirstHash color) 0)
             ++ lightChannel 0.2 (channel (JS.removeFirstHash color) 2)
             ++ lightChannel 0.2 (channel (JS.removeFirstHash color) 4))%string
    | change (lightenColor color 0.4) with
        ("#" ++ lightChannel 0.4 (channel (JS.removeFirstHash color) 0)
             ++ lightChannel 0.4 (channel (JS.removeFirstHash color) 2)
             ++ lightChannel 0.4 (channel (JS.removeFirstHash color) 4))%string ];
    apply not_color_with_NaN; rewrite Hnan; auto.
Qed.

Lemma malformed_colour_not_shaded_witness :
  (String.length (JS.removeFirstHash "#fff") <= 4)%nat
  /\ darkenColor "#fff" 0.3 = "#b20aNaN"
  /\ Forall (fun c => isHexColor c = false)
       [darkenColor "#fff" 0.3; darkenColor "#fff" 0.2;
        lightenColor "#fff" 0.2; lightenColor "#fff" 0.4].
Proof.
  assert (H : (String.length (JS.removeFirstHash "#fff") <= 4)%nat)
    by (cbn; lia).
  split; [exact H |]. split; [reflexivity |].
  exact (proj2 (malformed_colour_not_shaded "#fff" H)).
Defined.

(** What [parseInt] accepts besides digits: a leading blank, a sign, a
    [0x] prefix. *)
Example parseInt_leading_blank :
  lightenColor "# f1020" 0.2 = "#3f3f4c"
  /\ darkenColor "#-f0x+a" 0.2 = "#00NaN08"
  /\ PrimFloat.is_nan (JS.parseInt16 "0x") = true.
Proof. repeat split; vm_compute; reflexivity. Qed.

(** X16.  In the results view a larger win percentage never gives a
    lighter fill: for one base colour [#rrggbb], channel by channel, the
    fill at the larger percentage is at most the fill at the smaller
    one. *)
Theorem results_fill_darkens (base : string) (p q : Q) :
  isHexColor base = true ->
  (p <= q)%Q ->
  exists cp cq,
    channels (resultsFill base (JS.Fin p)) = Some cp
    /\ channels (resultsFill base (JS.Fin q)) = Some cq
    /\ darkerOrEqual cq cp.
Proof.
  intros Hbase Hpq.
  destruct (shades_chain _ Hbase)
    as ([[c1 c2] c3] & [[a1 a2] a3] & [[b1 b2] b3] & [[e1 e2] e3]
        & [[g1 g2] g3] & H0 & H3 & H2 & H2' & H4 & _ & Hchain).
  unfold darkerOrEqual in Hchain.
  unfold resultsFill, JS.ofZ, inject_Z. rewrite !ge_Fin.
  split_thresholds;
    do 2 eexists;
    (split; [eassumption | split; [eassumption |]]);
    unfold darkerOrEqual; lia.
Qed.

Lemma results_fill_darkens_witness :
  isHexColor "#1f77b4" = true
  /\ (45 <= 85)%Q
  /\ exists cp cq,
       channels (resultsFill "#1f77b4" (JS.Fin 45)) = Some cp
       /\ channels (resultsFill "#1f77b4" (JS.Fin 85)) = Some cq
       /\ darkerOrEqual cq cp.
Proof.
  assert (H : (45 <= 85)%Q) by (unfold Qle; cbn; lia).
  split; [reflexivity |]. split; [exact H |].
  exact (results_fill_darkens "#1f77b4" 45 85 eq_refl H).
Defined.

(* ================================================================== *)
(** ** More on the precinct popup and the console *)

Lemma prop_Some_In {A : Type} (o : list (string * A)) (k : string) (v : A) :
  JS.prop o k = Some v -> In (k, v) o.
Proof.
  induction o as [| [k' v'] o IH]; cbn; [discriminate |].
  destruct (String.eqb_spec k' k) as [-> | _].
  - intros [= ->]. now left.
  - intro H. right. now apply IH.
Qed.

Lemma distinct_keys_value {A : Type} (l : list (string * A)) (k : string)
    (a b : A) :
  NoDup (map fst l) -> In (k, a) l -> In (k, b) l -> a = b.
Proof.
  induction l as [| [k' v'] l IH]; cbn; [tauto |].
  intros Hnd Ha Hb. apply NoDup_cons_iff in Hnd. destruct Hnd as [Hk Hnd].
  destruct Ha as [Ha | Ha], Hb as [Hb | Hb]; auto.
  - congruence.
  - injection Ha as -> ->. exfalso. apply Hk.
    apply in_map_iff. now exists (k, b).
  - injection Hb as -> ->. exfalso. apply Hk.
    apply in_map_iff. now exists (k, a).
Qed.

(** X17.  In a record with distinct candidate keys whose votes all lie
    between 0 and the total votes of the precinct, the win percentage of
    the winner lies between 0 and 100 and is at least the percentage of
    every other candidate. *)
Theorem winPercentage_bounds (r : PrecinctResult) (w : string) :
  getWinningCandidate (Some r) = Some w ->
  NoDup (map fst (results r)) ->
  Forall (fun kv => 0 <= snd kv <= votes r) (results r) ->
  exists p,
    winPercentage r w = JS.Fin p
    /\ (0 <= p <= 100)%Q
    /\ forall k v,
         In (k, v) (candidateEntries r) ->
         0 < votes r ->
         (inject_Z v / inject_Z (votes r) * inject_Z 100 <= p)%Q.
Proof.
  intros Hw Hnd Hall.
  destruct (winPercentage_winner r w Hw) as (v & Hv & Hp).
  pose proof (prop_Some_In _ _ _ Hv) as Hin.
  rewrite Forall_forall in Hall. pose proof (Hall _ Hin) as Hb. cbn in Hb.
  assert (Hhead : exists v' rest, rankedCandidates r = (w, v') :: rest).
  { rewrite getWinningCandidate_ranked in Hw.
    destruct (rankedCandidates r) as [| [k v'] rest]; [discriminate |].
    destruct (JS.truthy k); [| discriminate]. injection Hw as ->. eauto. }
  destruct Hhead as (v' & rest & Hranked).
  destruct (sort_head_first_max _ _ _ _ Hranked)
    as (before & after & Hl & Hbefore & Hafter).
  assert (Hwin : In (w, v') (candidateEntries r))
    by (rewrite Hl; apply in_or_app; right; now left).
  assert (Hvv : v' = v).
  { apply filter_In in Hwin. destruct Hwin as [Hwin _].
    exact (distinct_keys_value _ _ _ _ Hnd Hwin Hin). }
  subst v'.
  assert (Hmax : forall k u, In (k, u) (candidateEntries r) -> u <= v).
  { intros k u Hu. rewrite Hl in Hu. apply in_app_or in Hu.
    rewrite Forall_forall in Hbefore, Hafter.
    destruct Hu as [Hu | [Hu | Hu]].
    - specialize (Hbefore _ Hu). cbn in Hbefore. lia.
    - injection Hu as _ <-. lia.
    - now specialize (Hafter _ Hu). }
  rewrite Hp. destruct (Z.gtb_spec (votes r) 0) as [Hpos | Hnpos].
  - eexists. split; [reflexivity |].
    split; [apply percentage_bounds; lia |].
    intros k u Hu _. specialize (Hmax k u Hu).
    assert (Hq : (inject_Z u <= inject_Z v)%Q) by (rewrite <- Zle_Qle; lia).
    assert (Hn : (0 < inject_Z (votes r))%Q)
      by (change 0%Q with (inject_Z 0); rewrite <- Zlt_Qlt; lia).
    apply Qmult_le_compat_r; [| discriminate].
    apply Qmult_le_compat_r; [assumption |].
    apply Qlt_le_weak. now apply Qinv_lt_0_compat.
  - exists 0%Q. split; [reflexivity |]. split; [lra |]. intros; lia.
Qed.

Lemma winPercentage_bounds_witness :
  getWinningCandidate (Some precinct_half) = Some "cuomo-a"
  /\ NoDup (map fst (results precinct_half))
  /\ Forall (fun kv => 0 <= snd kv <= votes precinct_half)
       (results precinct_half)
  /\ exists p,
       winPercentage precinct_half "cuomo-a" = JS.Fin p
       /\ (0 <= p <= 100)%Q
       /\ forall k v,
            In (k, v) (candidateEntries precinct_half) ->
            0 < votes precinct_half ->
            (inject_Z v / inject_Z (votes precinct_half) * inject_Z 100
             <= p)%Q.
Proof.
  assert (Hnd : NoDup (map fst (results precinct_half))).
  { repeat constructor; cbn; intuition discriminate. }
  assert (Hall : Forall (fun kv => 0 <= snd kv <= votes precinct_half)
                   (results precinct_half)).
  { repeat constructor; cbn; lia. }
  split; [reflexivity |]. split; [exact Hnd |]. split; [exact Hall |].
  exact (winPercentage_bounds precinct_half "cuomo-a" eq_refl Hnd Hall).
Defined.

(** X18.  The two overall-turnout lines of a precinct popup.  The
    election section prints its line exactly when both records exist and
    the registration total is positive; the registration section prints
    its line exactly when both records exist and the votes are positive,
    whatever the registration total.  Both print the overall turnout of
    the precinct.  So what the election section prints is a finite number,
    which the registration section prints too unless the votes are not
    positive; and what the registration section prints is not finite
    exactly when the registration total is 0. *)
Theorem popup_overall_turnout (precincts : list PrecinctResult)
    (getVoterCounts : Z -> option VoterCounts.t)
    (f : Feature) (viewMode : ViewMode) :
  let m := value (onEachPrecinct precincts getVoterCounts f viewMode) in
  let joined r v :=
    value (getPrecinctResults precincts (ElectDist f)) = Some r
    /\ getVoterCounts (ElectDist f) = Some v in
  (forall p,
     el_overallTurnout m = Pct p
     <-> exists r v,
           joined r v /\ 0 < VoterCounts.total v /\ p = overallTurnout r v)
  /\ (forall p,
        reg_overallTurnout m = Pct p
        <-> exists r v,
              joined r v /\ 0 < votes r /\ p = overallTurnout r v)
  /\ (forall s, el_overallTurnout m <> Lit s /\ reg_overallTurnout m <> Lit s)
  /\ (forall p,
        el_overallTurnout m = Pct p ->
        JS.isFinite p = true
        /\ (reg_overallTurnout m = Pct p \/ reg_overallTurnout m = Omitted))
  /\ (forall p,
        reg_overallTurnout m = Pct p ->
        exists r v,
          joined r v
          /\ 0 < votes r
          /\ (JS.isFinite p = false <-> VoterCounts.total v = 0)).
Proof.
  intros m joined. subst m joined. unfold onEachPrecinct, overallTurnout.
  rewrite value_bind.
  destruct (value (getPrecinctResults precincts (ElectDist f))) as [r |];
    destruct (getVoterCounts (ElectDist f)) as [v |];
    cbn [value ret fst el_overallTurnout reg_overallTurnout];
    (split; [| split; [| split; [| split]]]);
    try (intro p; split; [discriminate | intros (? & ? & [? ?] & _); discriminate]);
    try (intro s; split; try destruct (_ >? 0); discriminate);
    try (intros p H; discriminate H).
  - intro p. destruct (VoterCounts.total v >? 0) eqn:Ht; split.
    + intros [= <-]. exists r, v. repeat split. lia.
    + intros (r' & v' & [[= <-] [= <-]] & _ & ->). reflexivity.
    + discriminate.
    + intros (r' & v' & [[= <-] [= <-]] & Hpos & _). lia.
  - intro p. destruct (votes r >? 0) eqn:Hv; split.
    + intros [= <-]. exists r, v. repeat split. lia.
    + intros (r' & v' & [[= <-] [= <-]] & _ & ->). reflexivity.
    + discriminate.
    + intros (r' & v' & [[= <-] [= <-]] & Hpos & _). lia.
  - intros p H.
    destruct (VoterCounts.total v >? 0) eqn:Ht; [| discriminate].
    injection H as <-. split.
    + unfold JS.ofZ at 1. now rewrite percentOf_nonzero by lia.
    + destruct (votes r >? 0); auto.
  - intros p H.
    destruct (votes r >? 0) eqn:Hv; [| discriminate].
    injection H as <-. exists r, v. repeat split; try lia.
    + destruct (Z.eq_dec (VoterCounts.total v) 0) as [| Hne]; [auto |].
      unfold JS.ofZ at 1. rewrite percentOf_nonzero by assumption.
      discriminate.
    + intros ->. unfold percentOf, JS.div, JS.ofZ.
      rewrite !Qsign_inject_Z. cbn.
      destruct (Z.compare_spec (votes r) 0); try lia. reflexivity.
Qed.

Lemma logged_bind {A B : Type} (m : Console A) (k : A -> Console B) :
  logged (bind m k) = (logged m ++ logged (k (value m)))%list.
Proof. destruct m as [a l]. unfold bind, logged, value. cbn. now destruct (k a). Qed.

Lemma getPrecinctResults_logged (precincts : list PrecinctResult)
    (f : Feature) :
  logged (getPrecinctResults precincts (ElectDist f))
  = if hasResults precincts f then [] else [NoResultsFound (ElectDist f)].
Proof.
  rewrite hasResults_find, getPrecinctResults_value.
  unfold getPrecinctResults. now destruct (find _ precincts).
Qed.

(** X19.  What the styling functions write to the console: a view that
    joins the election record logs one line, naming the district, for a
    feature without such a record, and nothing otherwise; the registration
    view never logs. *)
Theorem style_log (precincts : list PrecinctResult)
    (getVoterCounts : Z -> option VoterCounts.t)
    (viewMode : ViewMode) (f : Feature) :
  logged (styleFunction precincts getVoterCounts viewMode f)
  = if needsElection viewMode && negb (hasResults precincts f)
    then [NoResultsFound (ElectDist f)]
    else [].
Proof.
  destruct viewMode; cbn [styleFunction needsElection andb];
    unfold stylePrecinctByResults, stylePrecinctByTurnout,
      stylePrecinctByZohranSupport, stylePrecinctByVoters;
    rewrite ?logged_bind, ?getPrecinctResults_logged;
    destruct (hasResults precincts f); cbn [negb app];
    repeat match goal with
      | |- context [match ?x with _ => _ end] => destruct x
      end; reflexivity.
Qed.
